(** * Langflow: event recorder, MCP server configuration helpers and the
      prompt component

    A shallow embedding of three Python modules:

    - [lfx/debug/event_recorder.py]   ([EventBasedRecording], [EventRecorder])
    - [langflow/api/utils/mcp/config_utils.py]
        ([MCPServerValidationResult], [validate_mcp_server_for_project],
         [get_url_by_os], [get_project_sse_url])
    - [lfx/components/processing/prompt.py]  ([PromptComponent.build_prompt])

    Python objects that are shared by reference (the mutation events) live in
    an object store; functions that can raise return [Result]. *)

From Stdlib Require Import ZArith Ascii String List Sorting.Sorted Permutation.
From stdpp Require Import base decidable option list gmap strings fin_maps pretty sorting.

Open Scope string_scope.
Open Scope list_scope.
Open Scope Z_scope.

(** ** Python values and exceptions *)

(** The dynamically typed values that travel inside the dictionaries read by
    the code ([changes], [state_after], the MCP server configuration). *)
#[warnings="-register-all"]
Inductive PyVal : Type :=
  | PyNone
  | PyBool (b : bool)
  | PyInt (z : Z)
  | PyStr (s : string)
  | PyList (l : list PyVal)
  | PyDict (d : gmap string PyVal).

(** The exception classes that the modelled code can meet. *)
Inductive PyExn : Type :=
  | TypeError
  | IndexError
  | KeyError
  | AttributeError
  | OSError
  | UnicodeDecodeError
  | ValueError
  | OtherError (name : string).

(** A computation that either raises or returns. *)
Definition Result (A : Type) : Type := PyExn + A.

Definition raise {A} (e : PyExn) : Result A := inl e.

#[global] Instance Result_ret : MRet Result := fun A a => inr a.
#[global] Instance Result_bind : MBind Result := fun A B k m =>
  match m with
  | inl e => inl e
  | inr a => k a
  end.

(** [try: body except Exception: handler] *)
Definition try_except {A} (body : Result A) (handler : PyExn -> Result A) : Result A :=
  match body with
  | inl e => handler e
  | inr a => inr a
  end.

(** Truth value of a [str]. *)
Definition truthy_str (s : string) : bool := negb (String.eqb s "").

(** [x in l] for a list of strings. *)
Definition str_in_list (x : string) (l : list string) : bool :=
  existsb (String.eqb x) l.

(** [d.get(k)] and [d.get(k, dflt)] on a dictionary. *)
Definition dict_get (d : gmap string PyVal) (k : string) : PyVal :=
  default PyNone (d !! k).
Definition dict_get_default (d : gmap string PyVal) (k : string) (dflt : PyVal) : PyVal :=
  default dflt (d !! k).

(** ** [list.sort(key=...)]

    Python's sort is stable: among items with equal keys the original order
    is kept, which determines the result.  It is written here as a stable
    insertion sort on integer keys. *)
Section Sort.
Context {A : Type} (key : A -> Z).

Fixpoint insert_by_key (x : A) (l : list A) : list A :=
  match l with
  | [] => [x]
  | y :: l' => if (key x <=? key y)%Z then x :: y :: l' else y :: insert_by_key x l'
  end.

Definition list_sort (l : list A) : list A := foldr insert_by_key [] l.
End Sort.

(** ** Mutation events and the object store *)

(** Modelled from the spec: [GraphMutationEvent] is declared in
    [lfx.debug.events], which is not among the sources.  The record has the
    six fields the recorder reads: [vertex_id] is a [str] or [None], [step]
    an [int], [changes] and [state_after] dictionaries. *)
Record GraphMutationEvent : Type := {
  vertex_id : option string;
  event_type : string;
  step : Z;
  timing : string;
  changes : gmap string PyVal;
  state_after : gmap string PyVal
}.

(** Events are objects: the recorder stores references, not copies. *)
Definition ref : Type := positive.

(** The object store gives the current state of the event object behind
    every reference. *)
Definition Store : Type := ref -> GraphMutationEvent.

(** ** Text output

    [print] writes one text per call; a function that prints returns the
    texts in the order written. *)

(** The newline character inside a printed text. *)
Definition nl : string := String (ascii_of_nat 10) EmptyString.

(** [s * n] *)
Fixpoint str_repeat (s : string) (n : nat) : string :=
  match n with
  | O => EmptyString
  | S n' => s +:+ str_repeat s n'
  end.

(** [f"{i:3d}"]: the decimal form, right-aligned by spaces on the left. *)
Definition format_d (width : nat) (i : Z) : string :=
  let s := pretty i in
  str_repeat " " (width - String.length s) +:+ s.

(** [f"{s:20s}"]: the text, padded by spaces on the right, never cut. *)
Definition format_s (width : nat) (s : string) : string :=
  s +:+ str_repeat " " (width - String.length s).

(** [s.split(sep)] for a one-character separator: the first piece and the
    list of the others (the result is never empty). *)
Fixpoint split_on (sep : ascii) (s : string) : string * list string :=
  match s with
  | EmptyString => (EmptyString, [])
  | String c s' =>
      let '(w, ws) := split_on sep s' in
      if Ascii.eqb c sep then (EmptyString, w :: ws) else (String c w, ws)
  end.

(** The order of [(str, int)] tuples used by [sorted]. *)
Definition item_leb (a b : string * Z) : bool :=
  if String.eqb (fst a) (fst b) then (snd a <=? snd b)%Z
  else String.leb (fst a) (fst b).

(** Display constants *)
Definition MAX_TIMELINE_EVENTS : nat := 30.
Definition MAX_COMPONENT_EVENTS : nat := 20.

(** ** [EventBasedRecording] *)
Module EventBasedRecording.

Record t : Type := {
  flow_name : string;
  events : list ref;
  component_executions : list string
}.

(** [e.vertex_id == vertex_id] for a [str] argument: [None] equals no
    string. *)
Definition vertex_id_eq (o : option string) (v : string) : bool :=
  match o with
  | None => false
  | Some s => String.eqb s v
  end.

(** [[e for e in self.events if e.vertex_id == vertex_id]] *)
Definition get_events_for_vertex (σ : Store) (self : t) (v : string) : list ref :=
  List.filter (fun e => vertex_id_eq (vertex_id (σ e)) v) (events self).

(** [[e for e in self.events if e.event_type == event_type]] *)
Definition get_events_by_type (σ : Store) (self : t) (ty : string) : list ref :=
  List.filter (fun e => String.eqb (event_type (σ e)) ty) (events self).

(** The dictionary built for one event by [get_queue_evolution]. *)
Definition queue_entry (ev : GraphMutationEvent) : gmap string PyVal :=
  <["step" := PyInt (step ev)]>
  (<["event" := PyStr (event_type ev)]>
  (<["queue" := dict_get_default (state_after ev) "queue" (PyList [])]>
  (<["changes" := PyDict (changes ev)]> ∅))).

Definition get_queue_evolution (σ : Store) (self : t) : list (gmap string PyVal) :=
  let queue_events :=
    get_events_by_type σ self "queue_extended" ++
    get_events_by_type σ self "queue_dequeued" in
  let queue_events := list_sort (fun e => step (σ e)) queue_events in
  List.map (fun event => queue_entry (σ event))
    (List.filter (fun event => String.eqb (timing (σ event)) "after") queue_events).

(** The dictionary built for one event by [get_dependency_changes]. *)
Definition dependency_entry (ev : GraphMutationEvent) : gmap string PyVal :=
  <["step" := PyInt (step ev)]>
  (<["vertex" := match vertex_id ev with Some v => PyStr v | None => PyNone end]>
  (<["predecessor" := dict_get (changes ev) "predecessor"]>
  (<["run_predecessors_changed" := dict_get (changes ev) "run_predecessors_changed"]>
  (<["run_map_changed" := dict_get (changes ev) "run_map_changed"]> ∅)))).

Definition get_dependency_changes (σ : Store) (self : t) : list (gmap string PyVal) :=
  let dep_events := get_events_by_type σ self "dependency_added" in
  List.map (fun event => dependency_entry (σ event))
    (List.filter (fun event => String.eqb (timing (σ event)) "after") dep_events).

End EventBasedRecording.

(** ** [EventRecorder] *)
Module EventRecorder.

Record t : Type := {
  flow_name : string;
  events : list ref;
  component_executions : list string
}.

(** [__init__] *)
Definition init (flow_name : string) : t :=
  {| flow_name := flow_name; events := []; component_executions := [] |}.

(** [on_event] reads the delivered event through the store and appends to
    the recorder's two lists.  The store is threaded through the call, so
    any write to an event object would show in the returned store. *)
Definition on_event (σ : Store) (self : t) (event : ref) : Store * t :=
  let events' := events self ++ [event] in
  let component_executions' :=
    match vertex_id (σ event) with
    | Some v =>
        if truthy_str v && negb (str_in_list v (component_executions self))
        then component_executions self ++ [v]
        else component_executions self
    | None => component_executions self
    end in
  (σ, {| flow_name := flow_name self;
         events := events';
         component_executions := component_executions' |}).

Definition get_recording (self : t) : EventBasedRecording.t :=
  {| EventBasedRecording.flow_name := flow_name self;
     EventBasedRecording.events := events self;
     EventBasedRecording.component_executions := component_executions self |}.

(** The graph delivers a sequence of events, one [on_event] call each. *)
Definition deliver (σ : Store) (self : t) (evs : list ref) : Store * t :=
  fold_left (fun st event => on_event (fst st) (snd st) event) evs (σ, self).

End EventRecorder.

(** ** String operations of the Python runtime used by [config_utils] *)

(** [needle in hay] on strings. *)
Fixpoint str_contains (needle hay : string) : bool :=
  String.prefix needle hay ||
  match hay with
  | EmptyString => false
  | String _ hay' => str_contains needle hay'
  end.

(** [s[:n]] for an integer bound; a negative bound counts from the end. *)
Definition slice_to (s : string) (n : Z) : string :=
  let len := Z.of_nat (String.length s) in
  let stop := if (n <? 0)%Z then Z.max 0 (len + n) else Z.min n len in
  String.substring 0 (Z.to_nat stop) s.

(** [s.rstrip(chars)] for a one-character set. *)
Fixpoint rstrip_char (c : ascii) (s : string) : string :=
  match s with
  | EmptyString => EmptyString
  | String a s' =>
      match rstrip_char c s' with
      | EmptyString => if Ascii.eqb a c then EmptyString else String a EmptyString
      | r => String a r
      end
  end.

(** [s.replace(old, new)]: occurrences are found left to right and do not
    overlap.  [skip] counts the characters of a match still to be dropped. *)
Fixpoint replace_go (old new : string) (skip : nat) (s : string) : string :=
  match s with
  | EmptyString => EmptyString
  | String c s' =>
      match skip with
      | S k => replace_go old new k s'
      | O =>
          if String.prefix old s
          then new +:+ replace_go old new (String.length old - 1) s'
          else String c (replace_go old new 0 s')
      end
  end.

Fixpoint intersperse_str (new s : string) : string :=
  match s with
  | EmptyString => EmptyString
  | String c s' => String c (new +:+ intersperse_str new s')
  end.

Definition str_replace (s old new : string) : string :=
  match old with
  | EmptyString => new +:+ intersperse_str new s
  | _ => replace_go old new 0 s
  end.

(** [s.lower()] on ASCII text. *)
Definition ascii_lower (c : ascii) : ascii :=
  let n := nat_of_ascii c in
  if ((65 <=? n) && (n <=? 90))%nat then ascii_of_nat (n + 32) else c.

Fixpoint str_lower (s : string) : string :=
  match s with
  | EmptyString => EmptyString
  | String c s' => String (ascii_lower c) (str_lower s')
  end.

(** Whitespace removed by [bytes.strip()]: space, tab, newline, return,
    vertical tab and form feed. *)
Definition is_bytes_space (c : ascii) : bool :=
  let n := nat_of_ascii c in
  ((n =? 32) || ((9 <=? n) && (n <=? 13)))%nat.

(** Whitespace of [str.strip()] and [str.split()] below U+0080: the above and
    the four separators U+001C to U+001F. *)
Definition is_str_space (c : ascii) : bool :=
  let n := nat_of_ascii c in
  ((n =? 32) || ((9 <=? n) && (n <=? 13)) || ((28 <=? n) && (n <=? 31)))%nat.

Fixpoint lstrip (sp : ascii -> bool) (s : string) : string :=
  match s with
  | EmptyString => EmptyString
  | String c s' => if sp c then lstrip sp s' else s
  end.

Fixpoint rstrip (sp : ascii -> bool) (s : string) : string :=
  match s with
  | EmptyString => EmptyString
  | String c s' =>
      match rstrip sp s' with
      | EmptyString => if sp c then EmptyString else String c EmptyString
      | r => String c r
      end
  end.

Definition strip (sp : ascii -> bool) (s : string) : string :=
  rstrip sp (lstrip sp s).

(** [s.split()]: the maximal runs of non-whitespace characters. *)
Fixpoint split_go (cur : option string) (s : string) : list string :=
  match s with
  | EmptyString => match cur with Some w => [w] | None => [] end
  | String c s' =>
      if is_str_space c
      then match cur with
           | Some w => w :: split_go None s'
           | None => split_go None s'
           end
      else split_go (Some (default EmptyString cur +:+ String c EmptyString)) s'
  end.

Definition str_split (s : string) : list string := split_go None s.

Fixpoint str_forallb (p : ascii -> bool) (s : string) : bool :=
  match s with
  | EmptyString => true
  | String c s' => p c && str_forallb p s'
  end.

Definition is_ascii (c : ascii) : bool := (nat_of_ascii c <? 128)%nat.

(** [b.decode()].  Only ASCII output is modelled: a byte from 0x80 up is
    reported as undecodable, although Python accepts well-formed UTF-8
    sequences; the statements below that reach this call are about ASCII
    process output. *)
Definition bytes_decode (b : string) : Result string :=
  if str_forallb is_ascii b then mret b else raise UnicodeDecodeError.

(** ** [uuid.UUID] and its [str()] *)

Record UUID : Type := { uuid_int : N }.

Definition hex_char (n : N) : ascii :=
  match n with
  | 0 => "0" | 1 => "1" | 2 => "2" | 3 => "3" | 4 => "4" | 5 => "5"
  | 6 => "6" | 7 => "7" | 8 => "8" | 9 => "9" | 10 => "a" | 11 => "b"
  | 12 => "c" | 13 => "d" | 14 => "e" | _ => "f"
  end%char%N.

(** The [k] low hexadecimal digits of [x], most significant first. *)
Fixpoint hex_digits (k : nat) (x : N) (acc : string) : string :=
  match k with
  | O => acc
  | S k' => hex_digits k' (N.shiftr x 4) (String (hex_char (N.land x 15)) acc)
  end.

(** ['%032x' % int] cut into the 8-4-4-4-12 groups. *)
Definition uuid_str (u : UUID) : string :=
  let hex := hex_digits 32 (uuid_int u) EmptyString in
  String.substring 0 8 hex +:+ "-" +:+ String.substring 8 4 hex +:+ "-" +:+
  String.substring 12 4 hex +:+ "-" +:+ String.substring 16 4 hex +:+ "-" +:+
  String.substring 20 12 hex.

(** ** Dynamic operations on Python values *)

Definition py_truthy (v : PyVal) : bool :=
  match v with
  | PyNone => false
  | PyBool b => b
  | PyInt z => negb (z =? 0)%Z
  | PyStr s => truthy_str s
  | PyList l => match l with [] => false | _ => true end
  | PyDict d => negb (bool_decide (d = ∅))
  end.

(** [v.get(k, dflt)]: only dictionaries have the method. *)
Definition py_get (v : PyVal) (k : string) (dflt : PyVal) : Result PyVal :=
  match v with
  | PyDict d => mret (default dflt (d !! k))
  | _ => raise AttributeError
  end.

Definition is_py_str (s : string) (v : PyVal) : bool :=
  match v with
  | PyStr t => String.eqb t s
  | _ => false
  end.

(** [s in c] for a string [s]. *)
Definition py_contains_str (c : PyVal) (s : string) : Result bool :=
  match c with
  | PyDict d => mret (bool_decide (is_Some (d !! s)))
  | PyList l => mret (existsb (is_py_str s) l)
  | PyStr t => mret (str_contains s t)
  | _ => raise TypeError
  end.

(** [c[k]] for a string key [k]. *)
Definition py_getitem_str (c : PyVal) (k : string) : Result PyVal :=
  match c with
  | PyDict d => match d !! k with Some v => mret v | None => raise KeyError end
  | _ => raise TypeError
  end.

Fixpoint str_last (s : string) : option ascii :=
  match s with
  | EmptyString => None
  | String c s' => match str_last s' with Some d => Some d | None => Some c end
  end.

(** [c[-1]] *)
Definition py_getitem_last (c : PyVal) : Result PyVal :=
  match c with
  | PyList l => match last l with Some v => mret v | None => raise IndexError end
  | PyStr t =>
      match str_last t with
      | Some ch => mret (PyStr (String ch EmptyString))
      | None => raise IndexError
      end
  | PyDict _ => raise KeyError
  | _ => raise TypeError
  end.

(** ** [MCPServerValidationResult] *)
Module MCPServerValidationResult.

Record t : Type := {
  server_exists : bool;
  project_id_matches : bool;
  server_name : string;
  existing_config : PyVal;
  conflict_message : string
}.

(** [__init__(self, *, server_exists, project_id_matches, server_name="",
    existing_config=None, conflict_message="")].  Every parameter is
    keyword-only; an argument the call does not pass is [None] here.  The
    first two have no default, so leaving one out raises [TypeError]. *)
Definition init (server_exists project_id_matches : option bool)
    (server_name : option string) (existing_config : option PyVal)
    (conflict_message : option string) : Result t :=
  match server_exists, project_id_matches with
  | Some se, Some pim =>
      mret {| server_exists := se;
              project_id_matches := pim;
              server_name := default EmptyString server_name;
              existing_config := default PyNone existing_config;
              conflict_message := default EmptyString conflict_message |}
  | _, _ => raise TypeError
  end.

Definition has_conflict (self : t) : bool :=
  server_exists self && negb (project_id_matches self).

Definition should_skip (self : t) : bool :=
  server_exists self && project_id_matches self.

Definition should_proceed (self : t) : bool :=
  negb (server_exists self) || project_id_matches self.

End MCPServerValidationResult.

(** ** [validate_mcp_server_for_project] *)
Section Validate.
(** [MAX_MCP_SERVER_NAME_LENGTH] and [sanitize_mcp_name] are imported from
    [lfx.base.mcp]; the outcome of awaiting [get_server_list] is an input. *)
Variable MAX_MCP_SERVER_NAME_LENGTH : Z.
Variable sanitize_mcp_name : string -> string.

Definition project_server_name (project_name : string) : string :=
  "lf-" +:+ slice_to (sanitize_mcp_name project_name) (MAX_MCP_SERVER_NAME_LENGTH - 4).

Definition conflict_message_for (operation server_name project_name : string)
    (project_id : UUID) : string :=
  if String.eqb operation "create" then
    "MCP server name conflict: '" +:+ server_name +:+ "' already exists " +:+
    "for a different project. Cannot create MCP server for project " +:+
    "'" +:+ project_name +:+ "' (ID: " +:+ uuid_str project_id +:+ ")"
  else if String.eqb operation "update" then
    "MCP server name conflict: '" +:+ server_name +:+ "' exists for a different project. " +:+
    "Cannot update MCP server for project '" +:+ project_name +:+
    "' (ID: " +:+ uuid_str project_id +:+ ")"
  else if String.eqb operation "delete" then
    "MCP server '" +:+ server_name +:+ "' exists for a different project. " +:+
    "Cannot delete MCP server for project '" +:+ project_name +:+
    "' (ID: " +:+ uuid_str project_id +:+ ")"
  else EmptyString.

(** The body of the [try] block. *)
Definition validate_body (project_id : UUID) (project_name : string)
    (get_server_list : Result PyVal) (operation server_name : string)
    : Result MCPServerValidationResult.t :=
  existing_servers ← get_server_list;
  servers ← py_get existing_servers "mcpServers" (PyDict ∅);
  present ← py_contains_str servers server_name;
  if negb present then
    MCPServerValidationResult.init (Some false) None (Some server_name) None None
  else
    mcp_servers ← py_getitem_str existing_servers "mcpServers";
    existing_server_config ← py_getitem_str mcp_servers server_name;
    existing_args ← py_get existing_server_config "args" (PyList []);
    project_id_matches ←
      (if py_truthy existing_args then
         existing_sse_url ← py_getitem_last existing_args;
         py_contains_str existing_sse_url (uuid_str project_id)
       else mret false);
    let conflict_message :=
      if negb project_id_matches
      then conflict_message_for operation server_name project_name project_id
      else EmptyString in
    MCPServerValidationResult.init (Some true) (Some project_id_matches)
      (Some server_name) (Some existing_server_config) (Some conflict_message).

Definition validate_mcp_server_for_project (project_id : UUID)
    (project_name : string) (get_server_list : Result PyVal)
    (operation : string) : Result MCPServerValidationResult.t :=
  let server_name := project_server_name project_name in
  try_except
    (validate_body project_id project_name get_server_list operation server_name)
    (fun e =>
       (* the warning is logged, then: *)
       MCPServerValidationResult.init (Some false) None (Some server_name) None None).
End Validate.

(** ** [get_url_by_os] and [get_project_sse_url] *)

(** What [create_subprocess_exec("/usr/bin/hostname", "-I")] and
    [communicate()] come to: an [OSError], or an exit code with the bytes
    written to standard output. *)
Inductive ProcOutcome : Type :=
  | ProcOSError
  | ProcExit (returncode : Z) (stdout : string).

(** The operating-system facts the code asks for. *)
Record OSEnv : Type := {
  platform_system : string;
  uname_release : string;
  hostname_I : ProcOutcome
}.

(** The attributes of [settings_service.settings] that are read; [None] is an
    attribute that is absent or holds [None]. *)
Record Settings : Type := {
  host : option string;
  runtime_port : option Z;
  port : option Z
}.

(** [a or b] on [int | None] operands: [None] and [0] are falsy. *)
Definition int_or (a b : option Z) : option Z :=
  match a with
  | Some z => if (z =? 0)%Z then b else a
  | None => b
  end.

Definition http_base (host : string) (port : Z) : string :=
  "http://" +:+ host +:+ ":" +:+ pretty port.

Definition get_url_by_os (env : OSEnv) (host : string) (port : Z) (url : string)
    : Result string :=
  let os_type := platform_system env in
  let is_wsl :=
    String.eqb os_type "Linux" &&
    str_contains "microsoft" (str_lower (uname_release env)) in
  if is_wsl && (String.eqb host "localhost" || String.eqb host "127.0.0.1") then
    match hostname_I env with
    | ProcOSError => mret url
    | ProcExit returncode stdout =>
        if (returncode =? 0)%Z && truthy_str (strip is_bytes_space stdout) then
          text ← bytes_decode stdout;
          match str_split (strip is_str_space text) with
          | wsl_ip :: _ =>
              mret (str_replace url (http_base host port) (http_base wsl_ip port))
          | [] => raise IndexError
          end
        else mret url
    end
  else mret url.

Definition ALL_INTERFACES_HOST : string := "0.0.0.0".

Definition get_project_sse_url (settings : Settings) (env : OSEnv)
    (project_id : UUID) : Result string :=
  let server_host := default "localhost" (host settings) in
  let server_port :=
    default 7860 (int_or (int_or (runtime_port settings) (port settings)) (Some 7860)) in
  let host := if String.eqb server_host ALL_INTERFACES_HOST then "localhost" else server_host in
  let port := server_port in
  let base_url := rstrip_char "/" (http_base host port) in
  let project_sse_url :=
    base_url +:+ "/api/v1/mcp/project/" +:+ uuid_str project_id +:+ "/sse" in
  get_url_by_os env host port project_sse_url.

(** ** [PromptComponent.build_prompt] *)
Module PromptComponent.
Section BuildPrompt.
(** [Message] and its constructor [from_template_and_variables] come from
    [lfx.schema.message]. *)
Variable Message : Type.
Variable text : Message -> string.
Variable from_template_and_variables :
  string -> gmap string PyVal -> Result Message.

(** [mode] is [None] when the component has no attribute of that name. *)
Record t : Type := {
  mode : option string;
  _attributes : gmap string PyVal;
  status : option string
}.

(** [f(template_format=fmt, **attrs)]: a key of [attrs] that repeats the
    explicit keyword makes the call itself raise [TypeError]. *)
Definition call_from_template (fmt : string) (attrs : gmap string PyVal)
    : Result Message :=
  match attrs !! "template_format" with
  | Some _ => raise TypeError
  | None => from_template_and_variables fmt attrs
  end.

Definition build_prompt (self : t) : Result Message * t :=
  let mode_ := match mode self with Some m => m | None => "{variable}" end in
  let template_format :=
    if String.eqb mode_ "{{variable}}" then "mustache" else "f-string" in
  match call_from_template template_format (_attributes self) with
  | inl e => (inl e, self)
  | inr prompt =>
      (inr prompt,
       {| mode := mode self;
          _attributes := _attributes self;
          status := Some (text prompt) |})
  end.
End BuildPrompt.

(** [except ValueError] also catches the subclasses of [ValueError]. *)
Definition is_value_error (e : PyExn) : bool :=
  match e with
  | ValueError | UnicodeDecodeError => true
  | _ => false
  end.

(** [c[k] = v] for a string key [k]. *)
Definition py_setitem_str (c : PyVal) (k : string) (v : PyVal) : Result PyVal :=
  match c with
  | PyDict d => mret (PyDict (<[k := v]> d))
  | _ => raise TypeError
  end.

(** [d.pop(key, None)] on a dictionary with string keys: lists and
    dictionaries cannot be hashed, other keys that are no strings are not
    there. *)
Definition py_pop (d : gmap string PyVal) (key : PyVal) : Result (gmap string PyVal) :=
  match key with
  | PyStr s => mret (delete s d)
  | PyList _ | PyDict _ => raise TypeError
  | _ => mret d
  end.

Section FrontendNode.
(** [validate_mustache_template] ([lfx.utils.mustache_security]) raises
    [ValueError] on a template it rejects. *)
Variable validate_mustache_template : PyVal -> Result unit.

(** [process_prompt_template] ([lfx.base.prompts.api_utils]) is called for
    what it does to its [custom_fields] and [frontend_node_template]
    arguments: the exception it raises, if any, and the states it leaves the
    two objects in. *)
Variable process_prompt_template :
  PyVal -> string -> PyVal -> PyVal -> bool -> option PyExn * (PyVal * PyVal).

(** The [try] block shared by [_update_template] and [update_frontend_node],
    with the exception that left it, if any, and the state of the node. *)
Definition process_template_of_node (frontend_node : gmap string PyVal)
    (template_dict prompt_template : PyVal) (is_mustache : bool)
    : option PyExn * gmap string PyVal :=
  match (if is_mustache then validate_mustache_template prompt_template else mret tt) with
  | inl e => (Some e, frontend_node)
  | inr _ =>
      match frontend_node !! "custom_fields" with
      | None => (Some KeyError, frontend_node)
      | Some custom_fields =>
          let '(raised, (custom_fields', template_dict')) :=
            process_prompt_template prompt_template "template" custom_fields
              template_dict is_mustache in
          (raised,
           <["template" := template_dict']>
             (<["custom_fields" := custom_fields']> frontend_node))
      end
  end.

(** [except ValueError: pass] *)
Definition pass_value_error {A} (outcome : option PyExn * A) : Result A :=
  match fst outcome with
  | Some e => if is_value_error e then mret (snd outcome) else raise e
  | None => mret (snd outcome)
  end.

Definition _update_template (frontend_node : gmap string PyVal)
    : Result (gmap string PyVal) :=
  template_dict ← py_getitem_str (PyDict frontend_node) "template";
  template_field ← py_getitem_str template_dict "template";
  prompt_template ← py_getitem_str template_field "value";
  mode_field ← py_get template_dict "mode" (PyDict ∅);
  mode_ ← py_get mode_field "value" (PyStr "{variable}");
  let is_mustache := is_py_str "{{variable}}" mode_ in
  pass_value_error
    (process_template_of_node frontend_node template_dict prompt_template is_mustache).

(** [super().update_frontend_node] ([Component]) gives the node to work on
    and leaves [current_frontend_node] in some state; [update_template_values]
    ([lfx.template.utils]) writes into the node. *)
Variable super_update_frontend_node :
  gmap string PyVal -> gmap string PyVal ->
  Result (gmap string PyVal * gmap string PyVal).
Variable update_template_values :
  gmap string PyVal -> PyVal -> Result (gmap string PyVal).

Definition update_frontend_node (new_frontend_node current_frontend_node : gmap string PyVal)
    : Result (gmap string PyVal) :=
  super_result ← super_update_frontend_node new_frontend_node current_frontend_node;
  let frontend_node := fst super_result in
  let current_frontend_node := snd super_result in
  template_dict ← py_getitem_str (PyDict frontend_node) "template";
  template_field ← py_getitem_str template_dict "template";
  template ← py_getitem_str template_field "value";
  mode_field ← py_get template_dict "mode" (PyDict ∅);
  mode_ ← py_get mode_field "value" (PyStr "{variable}");
  let is_mustache := is_py_str "{{variable}}" mode_ in
  frontend_node ←
    pass_value_error
      (process_template_of_node frontend_node template_dict template is_mustache);
  previous_template ← py_getitem_str (PyDict current_frontend_node) "template";
  update_template_values frontend_node previous_template.

(** [FieldTypes.MUSTACHE_PROMPT.value] and [FieldTypes.PROMPT.value]
    ([lfx.inputs.input_mixin]). *)
Variable MUSTACHE_PROMPT : PyVal.
Variable PROMPT : PyVal.

(** [==] between two values, as [in] and [list.remove] apply it to the
    members of a list. *)
Variable py_eq : PyVal -> PyVal -> bool.

(** What the call of [process_prompt_template] in [update_build_config] does
    to [build_config], which is the [frontend_node_template] argument and
    holds the [custom_fields] argument. *)
Variable process_in_build_config :
  PyVal -> bool -> gmap string PyVal -> option PyExn * gmap string PyVal.

(** [l.remove(x)] when [x in l]. *)
Fixpoint remove_first (x : PyVal) (l : list PyVal) : list PyVal :=
  match l with
  | [] => []
  | y :: l' => if py_eq y x then l' else y :: remove_first x l'
  end.

(** One round of the loop over the old custom fields: the field leaves the
    list, if it is still there, and its entry leaves [build_config]. *)
Definition clean_old_field (state : list PyVal * gmap string PyVal) (old_field : PyVal)
    : Result (list PyVal * gmap string PyVal) :=
  let old_custom_fields := fst state in
  let old_custom_fields :=
    if existsb (fun y => py_eq y old_field) old_custom_fields
    then remove_first old_field old_custom_fields
    else old_custom_fields in
  build_config ← py_pop (snd state) old_field;
  mret (old_custom_fields, build_config).

Fixpoint clean_old_fields (copy : list PyVal) (state : list PyVal * gmap string PyVal)
    : Result (list PyVal * gmap string PyVal) :=
  match copy with
  | [] => mret state
  | old_field :: copy' =>
      state' ← clean_old_field state old_field;
      clean_old_fields copy' state'
  end.

(** The loop [for old_field in list(old_custom_fields)] for whatever
    [custom_fields.get("template", [])] gave.  A list is emptied member by
    member; an empty text or dictionary gives no round; a text or a
    dictionary with members stops the first round at [remove], which they do
    not have; anything else cannot be iterated. *)
Definition clean_custom_fields (old_custom_fields : PyVal)
    (build_config : gmap string PyVal) : Result (PyVal * gmap string PyVal) :=
  match old_custom_fields with
  | PyList l =>
      state ← clean_old_fields l (l, build_config);
      mret (PyList (fst state), snd state)
  | PyStr s =>
      if String.eqb s "" then mret (old_custom_fields, build_config)
      else raise AttributeError
  | PyDict d =>
      if bool_decide (d = ∅) then mret (old_custom_fields, build_config)
      else raise AttributeError
  | _ => raise TypeError
  end.

(** The list that was cleaned in place is the one kept under
    [custom_fields["template"]], when one is kept there and [custom_fields]
    is still in [build_config]. *)
Definition store_cleaned_fields (custom_fields : PyVal) (cleaned : PyVal)
    (build_config : gmap string PyVal) : gmap string PyVal :=
  match custom_fields, build_config !! "custom_fields" with
  | PyDict cf, Some _ =>
      match cf !! "template" with
      | Some _ => <["custom_fields" := PyDict (<["template" := cleaned]> cf)]> build_config
      | None => build_config
      end
  | _, _ => build_config
  end.

Definition update_build_config (build_config : gmap string PyVal)
    (field_value : PyVal) (field_name : option string)
    : Result (gmap string PyVal) :=
  if match field_name with Some n => String.eqb n "mode" | None => false end then
    let is_mustache := is_py_str "{{variable}}" field_value in
    template_dict ← py_getitem_str (PyDict build_config) "template";
    template_dict ←
      py_setitem_str template_dict "type" (if is_mustache then MUSTACHE_PROMPT else PROMPT);
    let build_config := <["template" := template_dict]> build_config in
    template_value ←
      py_get (default (PyDict ∅) (build_config !! "template")) "value" (PyStr "");
    if py_truthy template_value then
      let build_config :=
        match build_config !! "custom_fields" with
        | Some _ => build_config
        | None => <["custom_fields" := PyDict ∅]> build_config
        end in
      custom_fields ← py_getitem_str (PyDict build_config) "custom_fields";
      old_custom_fields ← py_get custom_fields "template" (PyList []);
      cleaned ← clean_custom_fields old_custom_fields build_config;
      let build_config := store_cleaned_fields custom_fields (fst cleaned) (snd cleaned) in
      pass_value_error
        match (if is_mustache then validate_mustache_template template_value
               else mret tt) with
        | inl e => (Some e, build_config)
        | inr _ =>
            match build_config !! "custom_fields" with
            | None => (Some KeyError, build_config)
            | Some _ => process_in_build_config template_value is_mustache build_config
            end
        end
    else mret build_config
  else mret build_config.
End FrontendNode.
End PromptComponent.

(** ** More of [EventBasedRecording]: searches and displays *)

(** [e.vertex_id and component_name in e.vertex_id] *)
Definition vertex_id_contains (o : option string) (component_name : string) : bool :=
  match o with
  | None => false
  | Some v => truthy_str v && str_contains component_name v
  end.

(** [[e for e in self.events if e.vertex_id and component_name in e.vertex_id]] *)
Definition get_events_by_component (σ : Store) (self : EventBasedRecording.t) (component_name : string)
    : list ref :=
  List.filter (fun e => vertex_id_contains (vertex_id (σ e)) component_name) (EventBasedRecording.events self).

(** [[e for e in self.events if e.step == step]] *)
Definition get_events_at_step (σ : Store) (self : EventBasedRecording.t) (n : Z) : list ref :=
  List.filter (fun e => (step (σ e) =? n)%Z) (EventBasedRecording.events self).

(** The loop of [show_summary] that fills [by_type]. *)
Definition count_by_type (σ : Store) (self : EventBasedRecording.t) : gmap string Z :=
  fold_left
    (fun (by_type : gmap string Z) event =>
       <[event_type (σ event) := (default 0 (by_type !! event_type (σ event)) + 1)%Z]> by_type)
    (EventBasedRecording.events self) ∅.

(** [sorted(by_type.items())] *)
Definition sorted_items (by_type : gmap string Z) : list (string * Z) :=
  merge_sort (fun a b => item_leb a b) (map_to_list by_type).

Definition show_summary (σ : Store) (self : EventBasedRecording.t) : list string :=
  let by_type := count_by_type σ self in
  [ nl +:+ str_repeat "=" 80;
    "Event Recording: " +:+ EventBasedRecording.flow_name self;
    str_repeat "=" 80 +:+ nl;
    "Total events: " +:+ pretty (Z.of_nat (length (EventBasedRecording.events self)));
    "Components executed: " +:+
      pretty (Z.of_nat (size (list_to_set (EventBasedRecording.component_executions self) : gset string)));
    nl +:+ "Event types:" ] ++
  List.map (fun item => "  " +:+ fst item +:+ ": " +:+ pretty (snd item))
    (sorted_items by_type).

(** [event.vertex_id.split("-")[0] if event.vertex_id else "Graph"] *)
Definition timeline_vertex (o : option string) : string :=
  match o with
  | Some v => if truthy_str v then fst (split_on "-" v) else "Graph"
  | None => "Graph"
  end.

Definition show_timeline (σ : Store) (self : EventBasedRecording.t) : list string :=
  let after_events :=
    List.filter (fun e => String.eqb (timing (σ e)) "after") (EventBasedRecording.events self) in
  [ nl +:+ str_repeat "=" 80;
    "Event Timeline: " +:+ EventBasedRecording.flow_name self;
    str_repeat "=" 80 +:+ nl;
    "Total events: " +:+ pretty (Z.of_nat (length (EventBasedRecording.events self))) +:+ nl;
    "Timeline (after events only):" ] ++
  imap (fun i event =>
          "[" +:+ format_d 3 (Z.of_nat i) +:+ "] " +:+
          format_s 20 (event_type (σ event)) +:+ " " +:+
          timeline_vertex (vertex_id (σ event)))
       (take MAX_TIMELINE_EVENTS after_events) ++
  (if (MAX_TIMELINE_EVENTS <? length after_events)%nat
   then [ nl +:+ "... and " +:+
          pretty (Z.of_nat (length after_events) - Z.of_nat MAX_TIMELINE_EVENTS)%Z +:+
          " more events" ]
   else []).

(** * Reference notions used in the statements *)

(** The non-empty vertex ids carried by a sequence of delivered events, in
    delivery order. *)
Definition delivered_vertex_ids (σ : Store) (evs : list ref) : list string :=
  flat_map (fun e =>
    match vertex_id (σ e) with
    | Some v => if String.eqb v "" then [] else [v]
    | None => []
    end) evs.

(** Each element kept at its first occurrence only. *)
Fixpoint first_occurrences (l : list string) : list string :=
  match l with
  | [] => []
  | x :: l' => x :: List.filter (fun y => negb (String.eqb y x)) (first_occurrences l')
  end.

(** What one [on_event] call does to [component_executions], as a function of
    the vertex ids seen. *)
Definition add_unique (acc : list string) (vs : list string) : list string :=
  fold_left (fun acc v => if str_in_list v acc then acc else acc ++ [v]) vs acc.

(** Nondecreasing keys. *)
Definition le_key {A : Type} (key : A -> Z) (a b : A) : Prop := (key a <= key b)%Z.

(** ** Sample data for the recorder *)

Definition sample_event (vid : option string) (ty : string) (st : Z) (tm : string)
    : GraphMutationEvent :=
  {| vertex_id := vid; event_type := ty; step := st; timing := tm;
     changes := {[ "predecessor" := PyStr "A" ]};
     state_after := {[ "queue" := PyList [PyStr "B"] ]} |}.

(** A store with five event objects of interest. *)
Definition sample_store : Store := fun r =>
  match r with
  | 1%positive => sample_event (Some "B") "queue_extended" 2 "after"
  | 2%positive => sample_event (Some "A") "queue_dequeued" 1 "after"
  | 3%positive => sample_event (Some "B") "dependency_added" 3 "after"
  | 4%positive => sample_event None "queue_extended" 1 "before"
  | 5%positive => sample_event (Some "") "dependency_added" 4 "before"
  | _ => sample_event None "other" 0 "before"
  end.

Definition sample_trace : list ref := [1; 2; 3; 4; 5; 2]%positive.

Definition sample_recording : EventBasedRecording.t :=
  EventRecorder.get_recording
    (snd (EventRecorder.deliver sample_store (EventRecorder.init "demo") sample_trace)).

(** ** Reference notions for the MCP helpers *)

(** "Proceed with creation": the set-up may go on and the server is not yet
    configured for this project. *)
Definition proceeds_to_create (r : MCPServerValidationResult.t) : bool :=
  MCPServerValidationResult.should_proceed r &&
  negb (MCPServerValidationResult.should_skip r).

(** The host and port that [get_project_sse_url] settles on before it asks
    the operating system. *)
Definition connect_host (settings : Settings) : string :=
  match host settings with
  | Some h => if String.eqb h "0.0.0.0" then "localhost" else h
  | None => "localhost"
  end.

Definition connect_port (settings : Settings) : Z :=
  match runtime_port settings with
  | Some 0 | None =>
      match port settings with
      | Some 0 | None => 7860
      | Some p => p
      end
  | Some p => p
  end.

Definition project_sse_path (project_id : UUID) : string :=
  "/api/v1/mcp/project/" +:+ uuid_str project_id +:+ "/sse".

(** The code runs under WSL: a Linux whose kernel release names Microsoft. *)
Definition is_wsl (env : OSEnv) : bool :=
  String.eqb (platform_system env) "Linux" &&
  str_contains "microsoft" (str_lower (uname_release env)).

Definition is_loopback_name (h : string) : bool :=
  String.eqb h "localhost" || String.eqb h "127.0.0.1".

(** The sentence of the specification about the URL, as written: the host is
    the configured one, with ["localhost"] standing in for ["0.0.0.0"]. *)
Definition sse_url_as_specified (settings : Settings) (project_id : UUID) : string :=
  http_base (connect_host settings) (connect_port settings) +:+
  project_sse_path project_id.

(** ** Sample data for the MCP helpers *)

Definition sample_uuid : UUID := {| uuid_int := 5%N |}.

Definition all_interfaces_settings : Settings :=
  {| host := Some "0.0.0.0"; runtime_port := None; port := Some 7860 |}.

Definition wsl_env : OSEnv :=
  {| platform_system := "Linux";
     uname_release := "5.15.90.1-microsoft-standard-WSL2";
     hostname_I := ProcExit 0 "172.20.0.5 " |}.

Definition mac_env : OSEnv :=
  {| platform_system := "Darwin"; uname_release := "23.1.0"; hostname_I := ProcOSError |}.

(** A stand-in for [sanitize_mcp_name] in the examples: names that are
    already clean are returned as they are. *)
Definition sanitize_clean (s : string) : string := s.

(** ** Reference notions for the prompt component *)

(** The format that goes with the [mode] attribute: ["mustache"] for
    ["{{variable}}"], ["f-string"] otherwise. *)
Definition chosen_format (self : PromptComponent.t) : string :=
  if decide (PromptComponent.mode self = Some "{{variable}}")
  then "mustache" else "f-string".

(** ** Sample data for the prompt component *)

Record SampleMessage : Type := { sample_text : string; sample_format : string }.

Definition sample_from_template (fmt : string) (attrs : gmap string PyVal)
    : Result SampleMessage :=
  match attrs !! "template" with
  | Some (PyStr s) => mret {| sample_text := s; sample_format := fmt |}
  | _ => raise ValueError
  end.

Definition sample_component (m : option string) : PromptComponent.t :=
  {| PromptComponent.mode := m;
     PromptComponent._attributes := {[ "template" := PyStr "Hello" ]};
     PromptComponent.status := None |}.

(** ** Reference notions for the displays *)

(** The total of the counts kept in a [by_type] dictionary. *)
Definition sum_counts (by_type : gmap string Z) : Z :=
  map_fold (fun _ c acc => (c + acc)%Z) 0%Z by_type.

(** An entry of [get_queue_evolution] carries step [k]. *)
Definition entry_step_is (k : Z) (entry : gmap string PyVal) : bool :=
  match entry !! "step" with
  | Some (PyInt z) => (z =? k)%Z
  | _ => false
  end.

(** The character does not occur in the text. *)
Definition str_lacks (c : ascii) (s : string) : bool :=
  str_forallb (fun a => negb (Ascii.eqb a c)) s.

(** A listing in which the sample project's server is registered for the
    sample project. *)
Definition sample_listing : PyVal :=
  PyDict {[ "mcpServers" := PyDict {[ "lf-demo" := PyDict {[ "args" := PyList
    [PyStr "mcp-proxy";
     PyStr "http://localhost:7860/api/v1/mcp/project/00000000-0000-0000-0000-000000000005/sse"] ]} ]} ]}.

Definition sample_validation : MCPServerValidationResult.t :=
  {| MCPServerValidationResult.server_exists := true;
     MCPServerValidationResult.project_id_matches := true;
     MCPServerValidationResult.server_name := "lf-demo";
     MCPServerValidationResult.existing_config := PyDict {[ "args" := PyList
       [PyStr "mcp-proxy";
        PyStr "http://localhost:7860/api/v1/mcp/project/00000000-0000-0000-0000-000000000005/sse"] ]};
     MCPServerValidationResult.conflict_message := "" |}.

(** A WSL machine whose address probe prints only a file separator. *)
Definition blank_probe_env : OSEnv :=
  {| platform_system := "Linux";
     uname_release := "5.15.90.1-microsoft-standard-WSL2";
     hostname_I := ProcExit 0 (String (ascii_of_nat 28) EmptyString) |}.

(** ** Reference notions for the front-end node *)

(** The node names the mustache syntax as its mode. *)
Definition declares_mustache (frontend_node : gmap string PyVal) : bool :=
  match frontend_node !! "template" with
  | Some (PyDict template_dict) =>
      match template_dict !! "mode" with
      | Some (PyDict mode_field) =>
          match mode_field !! "value" with
          | Some (PyStr m) => String.eqb m "{{variable}}"
          | _ => false
          end
      | _ => false
      end
  | _ => false
  end.

(** The text of the prompt template held by the node, if it holds one. *)
Definition node_template_value (frontend_node : gmap string PyVal) : option PyVal :=
  match frontend_node !! "template" with
  | Some (PyDict template_dict) =>
      match template_dict !! "template" with
      | Some (PyDict template_field) => template_field !! "value"
      | _ => None
      end
  | _ => None
  end.

(** The entries named by [names] taken out of a dictionary. *)
Definition without_keys (names : list string) (d : gmap string PyVal) : gmap string PyVal :=
  fold_left (fun m n => delete n m) names d.

(** ** Sample data for the front-end node *)

Definition reject_all (template : PyVal) : Result unit := inl ValueError.
Definition accept_all (template : PyVal) : Result unit := inr tt.

(** A processor that leaves both of its arguments as they are. *)
Definition process_nothing (template : PyVal) (name : string)
    (custom_fields frontend_node_template : PyVal) (is_mustache : bool)
    : option PyExn * (PyVal * PyVal) :=
  (None, (custom_fields, frontend_node_template)).

Definition process_nothing_in_config (template : PyVal) (is_mustache : bool)
    (build_config : gmap string PyVal) : option PyExn * gmap string PyVal :=
  (None, build_config).

(** Equality of texts; values that are no texts are not told apart. *)
Definition same_text (x y : PyVal) : bool :=
  match x, y with
  | PyStr a, PyStr b => String.eqb a b
  | PyStr _, _ | _, PyStr _ => false
  | _, _ => true
  end.

Definition sample_node (mode_value : string) : gmap string PyVal :=
  {[ "template" := PyDict
       {[ "template" := PyDict {[ "value" := PyStr "Hi {{name}}" ]};
          "mode" := PyDict {[ "value" := PyStr mode_value ]} ]};
     "custom_fields" := PyDict {[ "template" := PyList [PyStr "name"] ]};
     "name" := PyDict ∅ ]}.

(** A build configuration with a template text and one custom field. *)
Definition sample_build_config : gmap string PyVal :=
  {[ "template" := PyDict {[ "value" := PyStr "Hi {name}"; "type" := PyStr "prompt" ]};
     "custom_fields" := PyDict {[ "template" := PyList [PyStr "name"] ]};
     "name" := PyDict ∅;
     "mode" := PyDict ∅ ]}.

(** * Properties of the event recorder *)

Section RecorderLemmas.
Import EventRecorder.

Lemma str_in_list_spec (x : string) (l : list string) :
  str_in_list x l = true <-> x ∈ l.
Proof.
  unfold str_in_list. rewrite existsb_exists, list_elem_of_In. split.
  - intros (y & Hy & Heq). apply String.eqb_eq in Heq. by subst.
  - intros Hin. exists x. split; [done | apply String.eqb_refl].
Qed.

Lemma str_in_list_false (x : string) (l : list string) :
  str_in_list x l = false <-> x ∉ l.
Proof.
  rewrite <- str_in_list_spec. destruct (str_in_list x l); split; congruence.
Qed.

Lemma deliver_nil σ self : deliver σ self [] = (σ, self).
Proof. reflexivity. Qed.

Lemma deliver_cons σ self e evs :
  deliver σ self (e :: evs) =
  deliver (fst (on_event σ self e)) (snd (on_event σ self e)) evs.
Proof. reflexivity. Qed.

Lemma on_event_store σ self e : fst (on_event σ self e) = σ.
Proof. reflexivity. Qed.

Lemma on_event_events σ self e :
  events (snd (on_event σ self e)) = events self ++ [e].
Proof. reflexivity. Qed.

Lemma on_event_flow_name σ self e :
  flow_name (snd (on_event σ self e)) = flow_name self.
Proof. reflexivity. Qed.

Lemma on_event_component_executions σ self e :
  component_executions (snd (on_event σ self e)) =
  add_unique (component_executions self) (delivered_vertex_ids σ [e]).
Proof.
  unfold on_event, delivered_vertex_ids, add_unique, truthy_str. simpl.
  destruct (vertex_id (σ e)) as [v|]; [|done].
  destruct (String.eqb v ""); simpl; [done|].
  by destruct (str_in_list v (component_executions self)).
Qed.

Lemma deliver_store σ self evs : fst (deliver σ self evs) = σ.
Proof.
  revert self. induction evs as [|e evs IH]; intros self; [done|].
  rewrite deliver_cons, on_event_store. apply IH.
Qed.

Lemma deliver_events σ self evs :
  events (snd (deliver σ self evs)) = events self ++ evs.
Proof.
  revert self. induction evs as [|e evs IH]; intros self.
  - simpl. by rewrite app_nil_r.
  - rewrite deliver_cons, on_event_store, IH, on_event_events.
    by rewrite <- app_assoc.
Qed.

Lemma deliver_flow_name σ self evs :
  flow_name (snd (deliver σ self evs)) = flow_name self.
Proof.
  revert self. induction evs as [|e evs IH]; intros self; [done|].
  by rewrite deliver_cons, on_event_store, IH.
Qed.

Lemma add_unique_app acc vs ws :
  add_unique acc (vs ++ ws) = add_unique (add_unique acc vs) ws.
Proof. unfold add_unique. apply fold_left_app. Qed.

Lemma deliver_component_executions σ self evs :
  component_executions (snd (deliver σ self evs)) =
  add_unique (component_executions self) (delivered_vertex_ids σ evs).
Proof.
  revert self. induction evs as [|e evs IH]; intros self; [done|].
  rewrite deliver_cons, on_event_store, IH, on_event_component_executions.
  rewrite <- add_unique_app. f_equal.
  unfold delivered_vertex_ids. simpl. by rewrite app_nil_r.
Qed.
End RecorderLemmas.

(** ** Filters *)
Section FilterLemmas.
Context {A : Type}.

Lemma filter_filter_comm (p q : A -> bool) (l : list A) :
  List.filter p (List.filter q l) = List.filter q (List.filter p l).
Proof.
  induction l as [|x l IH]; [done|]. simpl.
  destruct (q x) eqn:Hq, (p x) eqn:Hp; simpl; rewrite ?Hq, ?Hp, IH; done.
Qed.

Lemma filter_filter_andb (p q : A -> bool) (l : list A) :
  List.filter p (List.filter q l) = List.filter (fun x => q x && p x) l.
Proof.
  induction l as [|x l IH]; [done|]. simpl.
  destruct (q x) eqn:Hq; simpl; [|done].
  destruct (p x); by rewrite IH.
Qed.

Lemma filter_bool_ext_in (p q : A -> bool) (l : list A) :
  (forall x, x ∈ l -> p x = q x) -> List.filter p l = List.filter q l.
Proof.
  intros H. apply List.filter_ext_in. intros x Hx. apply H.
  by apply list_elem_of_In.
Qed.

Lemma elem_of_List_filter (p : A -> bool) (l : list A) (x : A) :
  x ∈ List.filter p l <-> x ∈ l /\ p x = true.
Proof. rewrite !list_elem_of_In. apply List.filter_In. Qed.

Lemma List_filter_decide (P : A -> Prop) `{!forall x, Decision (P x)}
    (p : A -> bool) (l : list A) :
  (forall x, p x = true <-> P x) -> List.filter p l = filter P l.
Proof.
  intros Hpq. induction l as [|x l IH]; [done|]. simpl.
  rewrite filter_cons. destruct (decide (P x)) as [HP|HP].
  - apply Hpq in HP. by rewrite HP, IH.
  - destruct (p x) eqn:Hp; [by apply Hpq in Hp|done].
Qed.
End FilterLemmas.

Section FirstOccurrences.

Lemma first_occurrences_filter (p : string -> bool) (l : list string) :
  first_occurrences (List.filter p l) = List.filter p (first_occurrences l).
Proof.
  induction l as [|x l IH]; [done|]. simpl.
  destruct (p x) eqn:Hp; simpl.
  - rewrite IH. f_equal. apply filter_filter_comm.
  - rewrite IH, (filter_filter_andb p). apply List.filter_ext.
    intros y. destruct (String.eqb_spec y x) as [->|]; simpl; [done|].
    by destruct (p y).
Qed.

Lemma elem_of_first_occurrences (x : string) (l : list string) :
  x ∈ first_occurrences l <-> x ∈ l.
Proof.
  induction l as [|y l IH]; [done|]. simpl.
  rewrite !elem_of_cons, elem_of_List_filter, IH.
  destruct (String.eqb_spec x y) as [->|Hne]; simpl; [tauto|].
  split; [tauto | intros [?|?]; [done | tauto]].
Qed.

Lemma NoDup_List_filter (p : string -> bool) (l : list string) :
  NoDup l -> NoDup (List.filter p l).
Proof.
  induction 1 as [|x l Hx Hl IH]; simpl; [constructor|].
  destruct (p x); [|done]. constructor; [|done].
  rewrite elem_of_List_filter. tauto.
Qed.

Lemma NoDup_first_occurrences (l : list string) : NoDup (first_occurrences l).
Proof.
  induction l as [|x l IH]; simpl; constructor.
  - rewrite elem_of_List_filter, String.eqb_refl. simpl. intros [_ ?]; done.
  - by apply NoDup_List_filter.
Qed.

Lemma add_unique_first_occurrences (acc vs : list string) :
  add_unique acc vs =
  acc ++ first_occurrences (List.filter (fun v => negb (str_in_list v acc)) vs).
Proof.
  revert acc. induction vs as [|v vs IH]; intros acc.
  - simpl. by rewrite app_nil_r.
  - unfold add_unique. simpl. fold (add_unique (if str_in_list v acc then acc else acc ++ [v]) vs).
    destruct (str_in_list v acc) eqn:Hin; simpl; [apply IH|].
    rewrite IH, <- app_assoc. simpl. do 2 f_equal.
    rewrite <- first_occurrences_filter, filter_filter_andb. f_equal.
    apply List.filter_ext. intros y. unfold str_in_list.
    rewrite existsb_app. simpl. rewrite orb_false_r, negb_orb. done.
Qed.

Lemma add_unique_nil (vs : list string) :
  add_unique [] vs = first_occurrences vs.
Proof.
  rewrite add_unique_first_occurrences. simpl. f_equal.
  induction vs as [|v vs IH]; simpl; by rewrite ?IH.
Qed.

Lemma NoDup_add_unique (acc vs : list string) :
  NoDup acc -> NoDup (add_unique acc vs).
Proof.
  revert acc. induction vs as [|v vs IH]; intros acc Hacc; [done|].
  unfold add_unique. simpl. apply IH.
  destruct (str_in_list v acc) eqn:Hin; [done|].
  apply NoDup_app. split_and!; [done| |apply NoDup_singleton].
  intros x Hx ->%list_elem_of_singleton. by apply str_in_list_false in Hin.
Qed.

Lemma elem_of_delivered_vertex_ids σ evs (v : string) :
  v ∈ delivered_vertex_ids σ evs <->
  v <> "" /\ exists e, e ∈ evs /\ vertex_id (σ e) = Some v.
Proof.
  unfold delivered_vertex_ids. rewrite list_elem_of_In, in_flat_map. split.
  - intros (e & He & Hv). apply list_elem_of_In in He.
    destruct (vertex_id (σ e)) as [w|] eqn:Hw; [|done].
    destruct (String.eqb_spec w ""); [done|].
    destruct Hv as [->|[]]. eauto.
  - intros (Hne & e & He & Hv). exists e. split; [by apply list_elem_of_In|].
    rewrite Hv. destruct (String.eqb_spec v ""); [done | by left].
Qed.
End FirstOccurrences.

(** ** The recorder *)

Example sample_recording_events :
  EventBasedRecording.events sample_recording = [1; 2; 3; 4; 5; 2]%positive /\
  EventBasedRecording.component_executions sample_recording = ["B"; "A"].
Proof. split; reflexivity. Qed.

(** C1: the events delivered to a fresh recorder through [on_event] are what
    [get_recording] returns in its [events] field: the same references in
    delivery order, nothing dropped, repeated, reordered or replaced, and the
    objects behind them read exactly as before. *)
Theorem recorder_replays_delivered_events (σ : Store) (name : string) (evs : list ref) :
  let st := EventRecorder.deliver σ (EventRecorder.init name) evs in
  let recording := EventRecorder.get_recording (snd st) in
  EventBasedRecording.events recording = evs /\
  map (fst st) (EventBasedRecording.events recording) = map σ evs /\
  EventBasedRecording.flow_name recording = name.
Proof.
  cbv zeta. unfold EventRecorder.get_recording. cbn [EventBasedRecording.events
    EventBasedRecording.flow_name].
  by rewrite deliver_events, deliver_store, deliver_flow_name.
Qed.

(** C5: [on_event] writes to no event object.  The store it leaves is the
    store it was given, so the six fields of the delivered event read the same
    before and after the call, and of the recorder only [events] and
    [component_executions] can differ ([flow_name] is kept). *)
Theorem on_event_leaves_events_unchanged (σ : Store) (self : EventRecorder.t) (event : ref) :
  let st := EventRecorder.on_event σ self event in
  fst st = σ /\
  (vertex_id (fst st event) = vertex_id (σ event) /\
   event_type (fst st event) = event_type (σ event) /\
   step (fst st event) = step (σ event) /\
   timing (fst st event) = timing (σ event) /\
   changes (fst st event) = changes (σ event) /\
   state_after (fst st event) = state_after (σ event)) /\
  EventRecorder.flow_name (snd st) = EventRecorder.flow_name self.
Proof. simpl. done. Qed.

(** C10: after any sequence of [on_event] calls on a fresh recorder,
    [component_executions] lists every non-empty vertex id that some delivered
    event carried, once each, in the order of first delivery, and nothing
    else; and one [on_event] call keeps a duplicate-free list duplicate-free. *)
Theorem component_executions_first_occurrence_order (σ : Store) (name : string)
    (evs : list ref) :
  let ce := EventRecorder.component_executions
              (snd (EventRecorder.deliver σ (EventRecorder.init name) evs)) in
  ce = first_occurrences (delivered_vertex_ids σ evs) /\
  NoDup ce /\
  (forall v : string,
     v ∈ ce <-> v <> "" /\ exists e, e ∈ evs /\ vertex_id (σ e) = Some v) /\
  (forall (σ' : Store) (self : EventRecorder.t) (e : ref),
     NoDup (EventRecorder.component_executions self) ->
     NoDup (EventRecorder.component_executions (snd (EventRecorder.on_event σ' self e)))).
Proof.
  cbv zeta. rewrite deliver_component_executions.
  change (EventRecorder.component_executions (EventRecorder.init name)) with (@nil string).
  rewrite add_unique_nil.
  split_and!.
  - done.
  - apply NoDup_first_occurrences.
  - intros v. by rewrite elem_of_first_occurrences, elem_of_delivered_vertex_ids.
  - intros σ' self e Hnd. rewrite on_event_component_executions.
    by apply NoDup_add_unique.
Qed.

(** ** Reading a recording *)

Section RecordingLemmas.
Import EventBasedRecording.

Lemma vertex_id_eq_spec (o : option string) (v : string) :
  vertex_id_eq o v = true <-> o = Some v.
Proof.
  destruct o as [s|]; simpl; [|done].
  rewrite String.eqb_eq. split; [by intros -> | by intros [= ->]].
Qed.

Lemma get_events_by_type_spec σ self ty :
  get_events_by_type σ self ty =
  filter (fun e => event_type (σ e) = ty) (events self).
Proof.
  apply List_filter_decide. intros e. apply String.eqb_eq.
Qed.

Lemma queue_entry_lookup (ev : GraphMutationEvent) :
  queue_entry ev !! "step" = Some (PyInt (step ev)) /\
  queue_entry ev !! "event" = Some (PyStr (event_type ev)) /\
  queue_entry ev !! "queue" =
    Some (default (PyList []) (state_after ev !! "queue")) /\
  queue_entry ev !! "changes" = Some (PyDict (changes ev)) /\
  dom (queue_entry ev) = {[ "step"; "event"; "queue"; "changes" ]}.
Proof.
  unfold queue_entry, dict_get_default. split_and!; by simplify_map_eq.
Qed.

Lemma dependency_entry_lookup (ev : GraphMutationEvent) :
  dependency_entry ev !! "step" = Some (PyInt (step ev)) /\
  dependency_entry ev !! "vertex" =
    Some (match vertex_id ev with Some v => PyStr v | None => PyNone end) /\
  dependency_entry ev !! "predecessor" =
    Some (default PyNone (changes ev !! "predecessor")) /\
  dependency_entry ev !! "run_predecessors_changed" =
    Some (default PyNone (changes ev !! "run_predecessors_changed")) /\
  dependency_entry ev !! "run_map_changed" =
    Some (default PyNone (changes ev !! "run_map_changed")).
Proof.
  unfold dependency_entry, dict_get. split_and!; by simplify_map_eq.
Qed.
End RecordingLemmas.

Example sample_events_for_vertex :
  EventBasedRecording.get_events_for_vertex sample_store sample_recording "B"
    = [1; 3]%positive /\
  EventBasedRecording.get_events_for_vertex sample_store sample_recording "" 
    = [5]%positive.
Proof. split; reflexivity. Qed.

(** C4: [get_events_for_vertex v] returns exactly the recorded events whose
    [vertex_id] is [v], in recorded order; an event with another vertex id, or
    with none, is never in the result. *)
Theorem get_events_for_vertex_exact (σ : Store) (self : EventBasedRecording.t)
    (v : string) :
  let result := EventBasedRecording.get_events_for_vertex σ self v in
  result = filter (fun e => vertex_id (σ e) = Some v) (EventBasedRecording.events self) /\
  sublist result (EventBasedRecording.events self) /\
  (forall e, e ∈ result <->
     e ∈ EventBasedRecording.events self /\ vertex_id (σ e) = Some v) /\
  (forall e, vertex_id (σ e) <> Some v -> e ∉ result).
Proof.
  cbv zeta. unfold EventBasedRecording.get_events_for_vertex.
  rewrite (List_filter_decide (fun e => vertex_id (σ e) = Some v))
    by (intros e; apply vertex_id_eq_spec).
  split_and!.
  - done.
  - apply sublist_filter.
  - intros e. by rewrite list_elem_of_filter, (comm and).
  - intros e Hne [? _]%list_elem_of_filter. done.
Qed.

Example sample_dependency_changes :
  EventBasedRecording.get_dependency_changes sample_store sample_recording
    = [EventBasedRecording.dependency_entry (sample_store 3%positive)].
Proof. reflexivity. Qed.

(** C3: [get_dependency_changes] returns one entry for each recorded event of
    type ["dependency_added"] with timing ["after"], in recorded order, and
    none for any other event; an entry carries the event's [step] and
    [vertex_id] and the three values read from its [changes]. *)
Theorem get_dependency_changes_exact (σ : Store) (self : EventBasedRecording.t) :
  EventBasedRecording.get_dependency_changes σ self =
    map (fun e => EventBasedRecording.dependency_entry (σ e))
      (filter (fun e => event_type (σ e) = "dependency_added" /\ timing (σ e) = "after")
         (EventBasedRecording.events self)) /\
  (forall ev : GraphMutationEvent,
     EventBasedRecording.dependency_entry ev !! "step" = Some (PyInt (step ev)) /\
     EventBasedRecording.dependency_entry ev !! "vertex" =
       Some (match vertex_id ev with Some v => PyStr v | None => PyNone end) /\
     EventBasedRecording.dependency_entry ev !! "predecessor" =
       Some (default PyNone (changes ev !! "predecessor")) /\
     EventBasedRecording.dependency_entry ev !! "run_predecessors_changed" =
       Some (default PyNone (changes ev !! "run_predecessors_changed")) /\
     EventBasedRecording.dependency_entry ev !! "run_map_changed" =
       Some (default PyNone (changes ev !! "run_map_changed"))).
Proof.
  split; [|apply dependency_entry_lookup].
  unfold EventBasedRecording.get_dependency_changes,
    EventBasedRecording.get_events_by_type.
  rewrite filter_filter_andb. f_equal.
  apply List_filter_decide. intros e.
  by rewrite andb_true_iff, !String.eqb_eq.
Qed.

(** ** Sorting by key *)
Section SortLemmas.
Context {A : Type} (key : A -> Z).

Lemma insert_by_key_Permutation (x : A) (l : list A) :
  insert_by_key key x l ≡ₚ x :: l.
Proof.
  induction l as [|y l IH]; simpl; [done|].
  destruct (key x <=? key y)%Z; [done|].
  by rewrite IH, Permutation_swap.
Qed.

Lemma list_sort_Permutation (l : list A) : list_sort key l ≡ₚ l.
Proof.
  induction l as [|x l IH]; simpl; [done|].
  by rewrite insert_by_key_Permutation, IH.
Qed.

Lemma insert_by_key_sorted (x : A) (l : list A) :
  StronglySorted (le_key key) l -> StronglySorted (le_key key) (insert_by_key key x l).
Proof.
  induction 1 as [|y l Hl IH Hy]; simpl.
  - repeat constructor.
  - destruct (Z.leb_spec (key x) (key y)) as [Hle|Hlt].
    + constructor; [by constructor|].
      constructor; [done|].
      eapply Forall_impl; [exact Hy|]. unfold le_key. intros z Hz. lia.
    + constructor; [done|].
      rewrite insert_by_key_Permutation. constructor; [|done].
      unfold le_key. lia.
Qed.

Lemma list_sort_sorted (l : list A) : StronglySorted (le_key key) (list_sort key l).
Proof.
  induction l as [|x l IH]; simpl; [constructor|].
  by apply insert_by_key_sorted.
Qed.

Lemma List_filter_sorted (p : A -> bool) (l : list A) :
  StronglySorted (le_key key) l -> StronglySorted (le_key key) (List.filter p l).
Proof.
  induction 1 as [|y l Hl IH Hy]; simpl; [constructor|].
  destruct (p y); [|done]. constructor; [done|].
  apply Forall_forall. intros z [Hz _]%elem_of_List_filter.
  by eapply Forall_forall in Hy.
Qed.

Lemma List_filter_Permutation (p : A -> bool) (l l' : list A) :
  l ≡ₚ l' -> List.filter p l ≡ₚ List.filter p l'.
Proof.
  induction 1 as [|x l l' _ IH|x y l|l l' l'' _ IH1 _ IH2]; simpl.
  - done.
  - destruct (p x); by rewrite IH.
  - destruct (p x), (p y); try done. apply Permutation_swap.
  - by rewrite IH1.
Qed.

(** Two filters on disjoint properties, concatenated, hold the elements
    that have either property. *)
Lemma List_filter_app_disjoint (p q r : A -> bool) (l : list A) :
  (forall x, p x = true -> q x = false) ->
  List.filter r (List.filter p l ++ List.filter q l) ≡ₚ
  List.filter (fun x => (p x || q x) && r x) l.
Proof.
  intros Hpq. rewrite List.filter_app.
  induction l as [|x l IH]; simpl; [done|].
  destruct (p x) eqn:Hp; simpl.
  - rewrite (Hpq x Hp). destruct (r x); simpl; by rewrite IH.
  - destruct (q x); simpl; [|done].
    destruct (r x); simpl; [|done].
    by rewrite <- Permutation_middle, IH.
Qed.
End SortLemmas.

Example sample_queue_evolution :
  EventBasedRecording.get_queue_evolution sample_store sample_recording
    = [EventBasedRecording.queue_entry (sample_store 2%positive);
       EventBasedRecording.queue_entry (sample_store 2%positive);
       EventBasedRecording.queue_entry (sample_store 1%positive)].
Proof. vm_compute. reflexivity. Qed.

(** C2: [get_queue_evolution] returns one entry for each recorded event whose
    type is ["queue_extended"] or ["queue_dequeued"] and whose timing is
    ["after"]; the entries come in nondecreasing order of [step], and an entry
    carries the event's [step], [event_type], the queue of its [state_after]
    (the empty list when it has none) and its [changes]. *)
Theorem get_queue_evolution_entries (σ : Store) (self : EventBasedRecording.t) :
  exists evs : list ref,
    EventBasedRecording.get_queue_evolution σ self =
      map (fun e => EventBasedRecording.queue_entry (σ e)) evs /\
    evs ≡ₚ filter (fun e =>
              (event_type (σ e) = "queue_extended" \/
               event_type (σ e) = "queue_dequeued") /\
              timing (σ e) = "after")
            (EventBasedRecording.events self) /\
    StronglySorted (fun a b => (step (σ a) <= step (σ b))%Z) evs /\
    (forall ev : GraphMutationEvent,
       EventBasedRecording.queue_entry ev !! "step" = Some (PyInt (step ev)) /\
       EventBasedRecording.queue_entry ev !! "event" = Some (PyStr (event_type ev)) /\
       EventBasedRecording.queue_entry ev !! "queue" =
         Some (default (PyList []) (state_after ev !! "queue")) /\
       EventBasedRecording.queue_entry ev !! "changes" = Some (PyDict (changes ev))).
Proof.
  eexists. split; [reflexivity|]. split_and!.
  - rewrite (List_filter_Permutation _ _ _ (list_sort_Permutation _ _)).
    unfold EventBasedRecording.get_events_by_type.
    rewrite List_filter_app_disjoint.
    + erewrite List_filter_decide; [done|]. intros e.
      by rewrite andb_true_iff, orb_true_iff, !String.eqb_eq.
    + intros e ->%String.eqb_eq. done.
  - apply List_filter_sorted, list_sort_sorted.
  - intros ev. pose proof (queue_entry_lookup ev). tauto.
Qed.

(** * Properties of the MCP configuration helpers *)

Example decisions_of_a_foreign_server :
  MCPServerValidationResult.init (Some true) (Some false) (Some "lf-demo") None None
    = inr {| MCPServerValidationResult.server_exists := true;
             MCPServerValidationResult.project_id_matches := false;
             MCPServerValidationResult.server_name := "lf-demo";
             MCPServerValidationResult.existing_config := PyNone;
             MCPServerValidationResult.conflict_message := "" |}.
Proof. reflexivity. Qed.

(** C6: for every validation result, [should_proceed] holds exactly when
    [has_conflict] does not, [should_skip] implies [should_proceed], and
    [has_conflict] and [should_skip] never hold together; so exactly one of
    conflict, skip and proceed-with-creation is the outcome. *)
Theorem validation_result_decisions (r : MCPServerValidationResult.t) :
  (MCPServerValidationResult.should_proceed r = true <->
   MCPServerValidationResult.has_conflict r = false) /\
  (MCPServerValidationResult.should_skip r = true ->
   MCPServerValidationResult.should_proceed r = true) /\
  (MCPServerValidationResult.has_conflict r &&
   MCPServerValidationResult.should_skip r = false) /\
  ((MCPServerValidationResult.has_conflict r = true /\
    MCPServerValidationResult.should_skip r = false /\
    proceeds_to_create r = false) \/
   (MCPServerValidationResult.has_conflict r = false /\
    MCPServerValidationResult.should_skip r = true /\
    proceeds_to_create r = false) \/
   (MCPServerValidationResult.has_conflict r = false /\
    MCPServerValidationResult.should_skip r = false /\
    proceeds_to_create r = true)).
Proof.
  unfold proceeds_to_create, MCPServerValidationResult.should_proceed,
    MCPServerValidationResult.has_conflict, MCPServerValidationResult.should_skip.
  destruct (MCPServerValidationResult.server_exists r),
    (MCPServerValidationResult.project_id_matches r); simpl; intuition congruence.
Qed.

Lemma validation_result_decisions_witness :
  MCPServerValidationResult.should_skip
    {| MCPServerValidationResult.server_exists := true;
       MCPServerValidationResult.project_id_matches := true;
       MCPServerValidationResult.server_name := "lf-demo";
       MCPServerValidationResult.existing_config := PyNone;
       MCPServerValidationResult.conflict_message := "" |} = true /\
  MCPServerValidationResult.should_proceed
    {| MCPServerValidationResult.server_exists := true;
       MCPServerValidationResult.project_id_matches := true;
       MCPServerValidationResult.server_name := "lf-demo";
       MCPServerValidationResult.existing_config := PyNone;
       MCPServerValidationResult.conflict_message := "" |} = true.
Proof.
  split; [reflexivity|].
  apply (validation_result_decisions
    {| MCPServerValidationResult.server_exists := true;
       MCPServerValidationResult.project_id_matches := true;
       MCPServerValidationResult.server_name := "lf-demo";
       MCPServerValidationResult.existing_config := PyNone;
       MCPServerValidationResult.conflict_message := "" |}).
  reflexivity.
Defined.

(** ** [validate_mcp_server_for_project] *)

Lemma init_without_project_id_matches (se : option bool) (name : option string)
    (cfg : option PyVal) (msg : option string) :
  MCPServerValidationResult.init se None name cfg msg = inl TypeError.
Proof. by destruct se. Qed.

(** When the server is registered the call in the [try] block passes both
    required arguments, and a result comes back. *)
Example validate_existing_server :
  exists r,
    validate_mcp_server_for_project 64 sanitize_clean sample_uuid "demo"
      (inr (PyDict {[ "mcpServers" :=
         PyDict {[ "lf-demo" := PyDict {[ "args" := PyList
           [PyStr "mcp-proxy";
            PyStr "http://localhost:7860/api/v1/mcp/project/00000000-0000-0000-0000-000000000005/sse"] ]} ]} ]}))
      "create" = inr r /\
    MCPServerValidationResult.should_skip r = true.
Proof. eexists. split; vm_compute; reflexivity. Qed.

(** C7, on the code: whenever listing the servers raises, the handler's own
    constructor call leaves out the required [project_id_matches] and raises
    [TypeError], which leaves the function; the same happens when the server
    is not registered. *)
Theorem validate_raises_when_listing_fails (MAX : Z) (sanitize : string -> string)
    (project_id : UUID) (project_name operation : string) (e : PyExn) :
  validate_mcp_server_for_project MAX sanitize project_id project_name
    (inl e) operation = inl TypeError /\
  validate_mcp_server_for_project MAX sanitize project_id project_name
    (inr (PyDict ∅)) operation = inl TypeError.
Proof. split; reflexivity. Qed.

(** ** Strings *)

Lemma str_app_nil_l (s : string) : "" +:+ s = s.
Proof. reflexivity. Qed.

Lemma str_app_cons (x : ascii) (a s : string) :
  String x a +:+ s = String x (a +:+ s).
Proof. reflexivity. Qed.

Ltac str_simpl := simpl; rewrite ?str_app_cons, ?str_app_nil_l; simpl.

Section StringLemmas.

Lemma str_app_assoc (a b c : string) : (a +:+ b) +:+ c = a +:+ (b +:+ c).
Proof. induction a as [|x a IH]; str_simpl; by rewrite ?IH. Qed.


Lemma str_forallb_app (p : ascii -> bool) (a b : string) :
  str_forallb p (a +:+ b) = str_forallb p a && str_forallb p b.
Proof.
  induction a as [|x a IH]; str_simpl; [done|].
  by rewrite IH, andb_assoc.
Qed.

Lemma str_forallb_substring (p : ascii -> bool) (s : string) (n m : nat) :
  str_forallb p s = true -> str_forallb p (String.substring n m s) = true.
Proof.
  revert n m. induction s as [|x s IH]; intros n m; simpl.
  - by destruct n, m.
  - intros [Hx Hs]%andb_true_iff. destruct n as [|n].
    + destruct m as [|m]; simpl; [done|]. by rewrite Hx, IH.
    + by apply IH.
Qed.

Lemma prefix_app (a s : string) : String.prefix a (a +:+ s) = true.
Proof.
  induction a as [|x a IH]; str_simpl; [by destruct s|].
  by destruct (ascii_dec x x).
Qed.

Lemma replace_go_skip (old new a s : string) :
  replace_go old new (String.length a) (a +:+ s) = replace_go old new 0 s.
Proof. induction a as [|x a IH]; str_simpl; [done | apply IH]. Qed.

(** A text in which the first character of [old] does not occur is left
    alone by the replacement. *)
Lemma replace_go_absent (c : ascii) (old' new s : string) :
  str_forallb (fun a => negb (Ascii.eqb a c)) s = true ->
  replace_go (String c old') new 0 s = s.
Proof.
  induction s as [|x s IH]; simpl; [done|].
  intros [Hx Hs]%andb_true_iff.
  destruct (ascii_dec c x) as [->|Hne].
  - by rewrite Ascii.eqb_refl in Hx.
  - by rewrite IH.
Qed.

Lemma str_replace_prefix (c : ascii) (old' new rest : string) :
  str_forallb (fun a => negb (Ascii.eqb a c)) rest = true ->
  str_replace (String c old' +:+ rest) (String c old') new = new +:+ rest.
Proof.
  intros Hrest. unfold str_replace.
  rewrite str_app_cons. cbn [replace_go]. rewrite <- str_app_cons.
  rewrite prefix_app. f_equal.
  cbn [String.length]. rewrite Nat.sub_1_r. cbn [Nat.pred].
  by rewrite replace_go_skip, replace_go_absent.
Qed.

Lemma rstrip_char_snoc (c d : ascii) (s : string) :
  d <> c -> rstrip_char c (s +:+ String d "") = s +:+ String d "".
Proof.
  intros Hne. induction s as [|x s IH]; str_simpl.
  - by rewrite (proj2 (Ascii.eqb_neq d c) Hne).
  - rewrite IH. by destruct s.
Qed.

Lemma pretty_N_go_suffix (x : N) (acc : string) :
  exists pre, pretty_N_go x acc = pre +:+ acc.
Proof.
  revert acc. induction (N.lt_wf_0 x) as [x _ IH]; intros acc.
  destruct (decide (x = 0)%N) as [->|Hx].
  - exists "". by rewrite pretty_N_go_0.
  - rewrite pretty_N_go_step by lia.
    destruct (IH (x `div` 10)%N ltac:(apply N.div_lt; lia)
                (String (pretty_N_char (x `mod` 10)) acc)) as [pre ->].
    exists (pre +:+ String (pretty_N_char (x `mod` 10)) "").
    by rewrite str_app_assoc.
Qed.

Lemma pretty_N_char_not_slash (x : N) : pretty_N_char x <> "/"%char.
Proof. unfold pretty_N_char. by repeat case_match. Qed.

Lemma pretty_positive_last (x : positive) :
  exists pre d, pretty x = pre +:+ String d "" /\ d <> "/"%char.
Proof.
  unfold pretty, pretty_positive, pretty, pretty_N.
  rewrite decide_False by done. rewrite pretty_N_go_step by lia.
  destruct (pretty_N_go_suffix (N.pos x `div` 10)
              (String (pretty_N_char (N.pos x `mod` 10)) "")) as [pre ->].
  eexists _, _. split; [done | apply pretty_N_char_not_slash].
Qed.

(** The decimal form of an integer ends in a digit. *)
Lemma pretty_Z_last (z : Z) :
  exists pre d, pretty z = pre +:+ String d "" /\ d <> "/"%char.
Proof.
  destruct z as [|x|x]; unfold pretty, pretty_Z.
  - by exists "", "0"%char.
  - apply pretty_positive_last.
  - destruct (pretty_positive_last x) as (pre & d & -> & Hd).
    by exists ("-" +:+ pre), d.
Qed.

Lemma rstrip_http_base (h : string) (p : Z) :
  rstrip_char "/" (http_base h p) = http_base h p.
Proof.
  unfold http_base. destruct (pretty_Z_last p) as (pre & d & -> & Hd).
  rewrite <- !str_app_assoc. by apply rstrip_char_snoc.
Qed.

Lemma hex_char_not_h (n : N) : negb (Ascii.eqb (hex_char n) "h") = true.
Proof. unfold hex_char. by repeat case_match. Qed.

Lemma hex_digits_not_h (k : nat) (x : N) (acc : string) :
  str_forallb (fun a => negb (Ascii.eqb a "h")) acc = true ->
  str_forallb (fun a => negb (Ascii.eqb a "h")) (hex_digits k x acc) = true.
Proof.
  revert x acc. induction k as [|k IH]; intros x acc Hacc; simpl; [done|].
  apply IH. simpl. by rewrite hex_char_not_h, Hacc.
Qed.

(** No letter [h] occurs in the path of a project's SSE endpoint. *)
Lemma project_sse_path_not_h (u : UUID) :
  str_forallb (fun a => negb (Ascii.eqb a "h")) (project_sse_path u) = true.
Proof.
  unfold project_sse_path, uuid_str.
  pose proof (hex_digits_not_h 32 (uuid_int u) "" eq_refl) as Hhex.
  rewrite !str_forallb_app, !str_forallb_substring by done. done.
Qed.
End StringLemmas.

(** ** [get_project_sse_url] *)
Section SseUrl.

Lemma connect_port_spec (settings : Settings) :
  default 7860
    (int_or (int_or (runtime_port settings) (port settings)) (Some 7860))
  = connect_port settings.
Proof.
  unfold connect_port, int_or.
  destruct (runtime_port settings) as [[|?|?]|], (port settings) as [[|?|?]|];
    reflexivity.
Qed.

Lemma connect_host_spec (settings : Settings) :
  (if String.eqb (default "localhost" (host settings)) ALL_INTERFACES_HOST
   then "localhost" else default "localhost" (host settings))
  = connect_host settings.
Proof. unfold connect_host. by destruct (host settings). Qed.

Lemma connect_host_not_all_interfaces (settings : Settings) :
  connect_host settings <> "0.0.0.0".
Proof.
  unfold connect_host. destruct (host settings) as [h|]; [|done].
  by destruct (String.eqb_spec h "0.0.0.0").
Qed.

Lemma get_project_sse_url_unfold (settings : Settings) (env : OSEnv) (pid : UUID) :
  get_project_sse_url settings env pid =
  get_url_by_os env (connect_host settings) (connect_port settings)
    (sse_url_as_specified settings pid).
Proof.
  unfold get_project_sse_url.
  rewrite connect_port_spec, connect_host_spec, rstrip_http_base.
  reflexivity.
Qed.

Lemma http_base_cons (h : string) (p : Z) :
  http_base h p = String "h" ("ttp://" +:+ h +:+ ":" +:+ pretty p).
Proof. reflexivity. Qed.

(** Replacing the base of a project URL swaps the base and keeps the path. *)
Lemma replace_base (h ip : string) (p : Z) (pid : UUID) :
  str_replace (http_base h p +:+ project_sse_path pid) (http_base h p) (http_base ip p)
  = http_base ip p +:+ project_sse_path pid.
Proof.
  rewrite (http_base_cons h p).
  apply str_replace_prefix, project_sse_path_not_h.
Qed.

Lemma get_url_by_os_cases (env : OSEnv) (h : string) (p : Z) (pid : UUID) :
  let url := http_base h p +:+ project_sse_path pid in
  get_url_by_os env h p url = inr url \/
  (exists ip, get_url_by_os env h p url = inr (http_base ip p +:+ project_sse_path pid)) \/
  (exists e, get_url_by_os env h p url = inl e).
Proof.
  cbv zeta. unfold get_url_by_os.
  destruct (_ && (String.eqb h "localhost" || _)); [|by left].
  destruct (hostname_I env) as [|rc out]; [by left|].
  destruct ((rc =? 0)%Z && _); [|by left].
  destruct (bytes_decode out) as [e|text]; [right; right; by exists e|].
  cbn. destruct (str_split _) as [|ip rest]; [right; right; by eexists|].
  right; left. exists ip. unfold mret, Result_ret. by rewrite replace_base.
Qed.
End SseUrl.

Example sse_url_outside_wsl :
  get_project_sse_url all_interfaces_settings mac_env sample_uuid =
  inr "http://localhost:7860/api/v1/mcp/project/00000000-0000-0000-0000-000000000005/sse".
Proof. vm_compute. reflexivity. Qed.

(** C8, as stated, fails under WSL: with the server bound to ["0.0.0.0"] the
    URL does not use ["localhost"] but the address that [hostname -I]
    prints. *)
Lemma sse_url_wsl_counterexample :
  host all_interfaces_settings = Some "0.0.0.0" /\
  get_project_sse_url all_interfaces_settings wsl_env sample_uuid =
    inr "http://172.20.0.5:7860/api/v1/mcp/project/00000000-0000-0000-0000-000000000005/sse" /\
  sse_url_as_specified all_interfaces_settings sample_uuid =
    "http://localhost:7860/api/v1/mcp/project/00000000-0000-0000-0000-000000000005/sse" /\
  get_project_sse_url all_interfaces_settings wsl_env sample_uuid <>
    inr (sse_url_as_specified all_interfaces_settings sample_uuid).
Proof.
  split_and!; [reflexivity | by vm_compute | by vm_compute |].
  vm_compute. intros [=].
Qed.

(** C8, amended: the host the code settles on is never ["0.0.0.0"]
    (["localhost"] stands in for it) and the port is the runtime port when it
    is set and not zero, else the configured port when set and not zero, else
    7860.  Unless the code runs under WSL with a loopback host, and also when
    the address probe fails or prints nothing, the URL is
    [http://host:port/api/v1/mcp/project/<project_id>/sse]; under WSL with a
    loopback host the address printed first by [hostname -I] takes the host's
    place.  Every URL returned ends in the project path. *)
Theorem get_project_sse_url_amended (settings : Settings) (env : OSEnv)
    (project_id : UUID) :
  let h := connect_host settings in
  let p := connect_port settings in
  let path := project_sse_path project_id in
  h <> "0.0.0.0" /\
  (is_wsl env && is_loopback_name h = false ->
   get_project_sse_url settings env project_id = inr (http_base h p +:+ path)) /\
  (hostname_I env = ProcOSError ->
   get_project_sse_url settings env project_id = inr (http_base h p +:+ path)) /\
  (forall rc out,
     hostname_I env = ProcExit rc out ->
     rc <> 0 \/ strip is_bytes_space out = "" ->
     get_project_sse_url settings env project_id = inr (http_base h p +:+ path)) /\
  (forall out ip rest,
     is_wsl env && is_loopback_name h = true ->
     hostname_I env = ProcExit 0 out ->
     strip is_bytes_space out <> "" ->
     str_forallb is_ascii out = true ->
     str_split (strip is_str_space out) = ip :: rest ->
     get_project_sse_url settings env project_id = inr (http_base ip p +:+ path)) /\
  (forall url,
     get_project_sse_url settings env project_id = inr url ->
     exists base, url = base +:+ path).
Proof.
  cbv zeta. rewrite get_project_sse_url_unfold. unfold sse_url_as_specified.
  split_and!.
  - apply connect_host_not_all_interfaces.
  - unfold get_url_by_os, is_wsl, is_loopback_name. by intros ->.
  - unfold get_url_by_os. intros ->. by destruct (_ && _).
  - unfold get_url_by_os. intros rc out -> Hfail. destruct (_ && (_ || _)); [|done].
    destruct Hfail as [Hrc| ->].
    + by rewrite (proj2 (Z.eqb_neq rc 0) Hrc).
    + by rewrite andb_false_r.
  - unfold get_url_by_os, is_wsl, is_loopback_name, bytes_decode.
    intros out ip rest -> -> Hout -> Hsplit.
    unfold truthy_str. rewrite (proj2 (String.eqb_neq _ _) Hout).
    cbn. rewrite Hsplit. unfold mret, Result_ret. by rewrite replace_base.
  - intros url Hurl.
    destruct (get_url_by_os_cases env (connect_host settings)
                (connect_port settings) project_id) as [H|[[ip H]|[e H]]];
      cbv zeta in H; rewrite H in Hurl; [| |done].
    + injection Hurl as <-. by eexists.
    + injection Hurl as <-. by eexists.
Qed.

Lemma get_project_sse_url_amended_witness :
  is_wsl mac_env && is_loopback_name (connect_host all_interfaces_settings) = false /\
  get_project_sse_url all_interfaces_settings mac_env sample_uuid =
    inr (http_base "localhost" 7860 +:+ project_sse_path sample_uuid).
Proof.
  split; [reflexivity|].
  apply (get_project_sse_url_amended all_interfaces_settings mac_env sample_uuid).
  reflexivity.
Defined.

(** * Properties of the prompt component *)

Example build_prompt_mustache :
  PromptComponent.build_prompt SampleMessage sample_text sample_from_template
    (sample_component (Some "{{variable}}"))
  = (inr {| sample_text := "Hello"; sample_format := "mustache" |},
     {| PromptComponent.mode := Some "{{variable}}";
        PromptComponent._attributes := {[ "template" := PyStr "Hello" ]};
        PromptComponent.status := Some "Hello" |}).
Proof. reflexivity. Qed.

Example build_prompt_without_mode :
  fst (PromptComponent.build_prompt SampleMessage sample_text sample_from_template
         (sample_component None))
  = inr {| sample_text := "Hello"; sample_format := "f-string" |}.
Proof. reflexivity. Qed.

Section BuildPromptLemmas.
Context (Message : Type) (text : Message -> string).
Context (from_template_and_variables : string -> gmap string PyVal -> Result Message).

Lemma build_prompt_format (self : PromptComponent.t) :
  (if String.eqb
        match PromptComponent.mode self with
        | Some m => m
        | None => "{variable}"
        end "{{variable}}"
   then "mustache" else "f-string") = chosen_format self.
Proof.
  unfold chosen_format. destruct (PromptComponent.mode self) as [m|].
  - destruct (String.eqb_spec m "{{variable}}") as [->|Hne].
    + by rewrite decide_True.
    + rewrite decide_False; [done|]. by intros [= ->].
  - by rewrite decide_False.
Qed.
End BuildPromptLemmas.

(** C9: [build_prompt] builds the prompt with format ["mustache"] exactly
    when [mode] is ["{{variable}}"] and with ["f-string"] otherwise, also when
    there is no [mode] attribute; the prompt that was built is returned and
    its text becomes the component's [status]. *)
Theorem build_prompt_selects_format (Message : Type) (text : Message -> string)
    (from_template_and_variables : string -> gmap string PyVal -> Result Message)
    (self : PromptComponent.t) :
  let fmt := if decide (PromptComponent.mode self = Some "{{variable}}")
             then "mustache" else "f-string" in
  let run := PromptComponent.build_prompt Message text from_template_and_variables self in
  (forall prompt,
     PromptComponent._attributes self !! "template_format" = None ->
     from_template_and_variables fmt (PromptComponent._attributes self) = inr prompt ->
     run = (inr prompt,
            {| PromptComponent.mode := PromptComponent.mode self;
               PromptComponent._attributes := PromptComponent._attributes self;
               PromptComponent.status := Some (text prompt) |})) /\
  (forall prompt,
     fst run = inr prompt ->
     from_template_and_variables fmt (PromptComponent._attributes self) = inr prompt /\
     PromptComponent.status (snd run) = Some (text prompt) /\
     PromptComponent.mode (snd run) = PromptComponent.mode self /\
     PromptComponent._attributes (snd run) = PromptComponent._attributes self).
Proof.
  cbv zeta. unfold PromptComponent.build_prompt.
  rewrite build_prompt_format. unfold chosen_format, PromptComponent.call_from_template.
  split.
  - intros prompt -> ->. done.
  - intros prompt.
    destruct (PromptComponent._attributes self !! "template_format"); [done|].
    destruct (from_template_and_variables _ _) as [e|p]; simpl; [done|].
    by intros [= ->].
Qed.

Lemma build_prompt_selects_format_witness :
  PromptComponent._attributes (sample_component None) !! "template_format" = None /\
  sample_from_template "f-string" (PromptComponent._attributes (sample_component None))
    = inr {| sample_text := "Hello"; sample_format := "f-string" |} /\
  PromptComponent.build_prompt SampleMessage sample_text sample_from_template
    (sample_component None)
  = (inr {| sample_text := "Hello"; sample_format := "f-string" |},
     {| PromptComponent.mode := None;
        PromptComponent._attributes := {[ "template" := PyStr "Hello" ]};
        PromptComponent.status := Some "Hello" |}).
Proof.
  split; [reflexivity|]. split; [reflexivity|].
  apply (proj1 (build_prompt_selects_format SampleMessage sample_text
                  sample_from_template (sample_component None))); reflexivity.
Defined.

(** * More on the event recorder *)

Section SearchLemmas.






Lemma sublist_List_filter {A} (p : A -> bool) (l : list A) :
  sublist (List.filter p l) l.
Proof.
  induction l as [|x l IH]; simpl; [done|].
  destruct (p x); by constructor.
Qed.

Lemma List_filter_map {A B} (f : A -> B) (p : B -> bool) (l : list A) :
  List.filter p (List.map f l) = List.map f (List.filter (fun x => p (f x)) l).
Proof.
  induction l as [|x l IH]; simpl; [done|].
  destruct (p (f x)); simpl; by rewrite IH.
Qed.


Lemma first_occurrences_sublist (l : list string) : sublist (first_occurrences l) l.
Proof.
  induction l as [|x l IH]; simpl; [done|]. constructor.
  etrans; [apply sublist_List_filter | done].
Qed.
End SearchLemmas.

Example sample_events_by_component :
  get_events_by_component sample_store sample_recording "" = [1; 2; 3; 2]%positive /\
  get_events_at_step sample_store sample_recording 1 = [2; 4; 2]%positive.
Proof. split; reflexivity. Qed.


(** X2: [get_events_at_step n] returns, in recorded order, exactly the events
    recorded with step [n]; every recorded event is found at its own step,
    and no event is returned for two different steps. *)
Theorem get_events_at_step_exact (σ : Store) (self : EventBasedRecording.t) (n : Z) :
  get_events_at_step σ self n =
    filter (fun e => step (σ e) = n) (EventBasedRecording.events self) /\
  sublist (get_events_at_step σ self n) (EventBasedRecording.events self) /\
  (forall e, e ∈ EventBasedRecording.events self ->
     e ∈ get_events_at_step σ self (step (σ e))) /\
  (forall m e, e ∈ get_events_at_step σ self n ->
     e ∈ get_events_at_step σ self m -> n = m).
Proof.
  unfold get_events_at_step. split_and!.
  - apply List_filter_decide. intros e. apply Z.eqb_eq.
  - apply sublist_List_filter.
  - intros e He. rewrite elem_of_List_filter. split; [done | apply Z.eqb_refl].
  - intros m e [_ H1%Z.eqb_eq]%elem_of_List_filter [_ H2%Z.eqb_eq]%elem_of_List_filter.
    congruence.
Qed.

(** ** The recorder's lists only grow *)

(** X3: [on_event] is append-only.  After any sequence of deliveries to any
    recorder, the old [events] and the old [component_executions] are
    prefixes of the new ones, [events] has grown by exactly the number of
    deliveries, and [flow_name] is kept. *)
Theorem deliver_append_only (σ : Store) (self : EventRecorder.t) (evs : list ref) :
  let after := snd (EventRecorder.deliver σ self evs) in
  EventRecorder.events self `prefix_of` EventRecorder.events after /\
  EventRecorder.component_executions self `prefix_of`
    EventRecorder.component_executions after /\
  length (EventRecorder.events after) =
    (length (EventRecorder.events self) + length evs)%nat /\
  (length (EventRecorder.component_executions after) <=
     length (EventRecorder.component_executions self) + length evs)%nat /\
  EventRecorder.flow_name after = EventRecorder.flow_name self.
Proof.
  cbv zeta.
  rewrite deliver_events, deliver_component_executions, deliver_flow_name.
  rewrite add_unique_first_occurrences. split_and!.
  - by apply prefix_app_r.
  - by apply prefix_app_r.
  - by rewrite length_app.
  - rewrite length_app. apply Nat.add_le_mono_l.
    etrans; [apply sublist_length; apply first_occurrences_sublist|].
    etrans; [apply sublist_length, sublist_List_filter|].
    unfold delivered_vertex_ids. clear. induction evs as [|e evs IH]; simpl; [done|].
    rewrite length_app.
    destruct (vertex_id (σ e)) as [v|]; simpl; [|lia].
    destruct (String.eqb v ""); simpl; lia.
  - done.
Qed.

(** X4: delivering the same event a second time records it a second time
    in [events] but never adds to [component_executions]. *)
Theorem on_event_redelivery (σ : Store) (self : EventRecorder.t) (e : ref) :
  let once := snd (EventRecorder.on_event σ self e) in
  let twice := snd (EventRecorder.on_event σ once e) in
  EventRecorder.events twice = EventRecorder.events self ++ [e; e] /\
  EventRecorder.component_executions twice = EventRecorder.component_executions once.
Proof.
  cbv zeta. split.
  - rewrite !on_event_events, <- app_assoc. done.
  - unfold EventRecorder.on_event. cbn.
    destruct (vertex_id (σ e)) as [v|]; [|done].
    destruct (truthy_str v); simpl; [|done].
    destruct (str_in_list v (EventRecorder.component_executions self)) eqn:Hin; simpl.
    + unfold str_in_list in Hin. by rewrite Hin.
    + unfold str_in_list. rewrite existsb_app. simpl.
      by rewrite String.eqb_refl, orb_true_r.
Qed.

(** X5: in a recording taken from a fresh recorder, [component_executions]
    lists exactly the non-empty vertex ids for which [get_events_for_vertex]
    finds an event. *)
Theorem component_executions_have_events (σ : Store) (name : string)
    (evs : list ref) (v : string) :
  let recording :=
    EventRecorder.get_recording
      (snd (EventRecorder.deliver σ (EventRecorder.init name) evs)) in
  v ∈ EventBasedRecording.component_executions recording <->
  v <> "" /\ EventBasedRecording.get_events_for_vertex σ recording v <> [].
Proof.
  cbv zeta. unfold EventRecorder.get_recording, EventBasedRecording.get_events_for_vertex.
  cbn [EventBasedRecording.component_executions EventBasedRecording.events].
  rewrite deliver_component_executions, deliver_events.
  change (EventRecorder.component_executions (EventRecorder.init name)) with (@nil string).
  change (EventRecorder.events (EventRecorder.init name)) with (@nil ref).
  rewrite add_unique_nil, elem_of_first_occurrences, elem_of_delivered_vertex_ids.
  rewrite app_nil_l.
  assert ((exists e, e ∈ evs /\ vertex_id (σ e) = Some v) <->
          List.filter (fun e => EventBasedRecording.vertex_id_eq (vertex_id (σ e)) v) evs <> [])
    as ->; [|done].
  split.
  - intros (e & He & Hv) Hnil.
    assert (e ∈ List.filter
              (fun e => EventBasedRecording.vertex_id_eq (vertex_id (σ e)) v) evs) as Hin.
    { apply elem_of_List_filter. split; [done|]. by apply vertex_id_eq_spec. }
    rewrite Hnil in Hin. by apply elem_of_nil in Hin.
  - destruct (List.filter _ evs) as [|e l] eqn:Hf; [done|]. intros _.
    assert (e ∈ e :: l) as Hin by left. rewrite <- Hf in Hin.
    apply elem_of_List_filter in Hin as [He Hv]. apply vertex_id_eq_spec in Hv. eauto.
Qed.

(** ** Order among entries of the same step *)
Section Stability.
Context {A : Type} (key : A -> Z).

Lemma insert_by_key_filter_key (k : Z) (x : A) (l : list A) :
  List.filter (fun y => (key y =? k)%Z) (insert_by_key key x l) =
  List.filter (fun y => (key y =? k)%Z) (x :: l).
Proof.
  induction l as [|y l IH]; [done|]. cbn [insert_by_key].
  destruct (Z.leb_spec (key x) (key y)) as [Hle|Hlt]; [done|].
  cbn [List.filter] in *. rewrite IH.
  destruct (Z.eqb_spec (key x) k) as [Hx|Hx], (Z.eqb_spec (key y) k) as [Hy|Hy];
    try done. lia.
Qed.

(** The sort is stable: the items of one key keep their order. *)
Lemma list_sort_filter_key (k : Z) (l : list A) :
  List.filter (fun y => (key y =? k)%Z) (list_sort key l) =
  List.filter (fun y => (key y =? k)%Z) l.
Proof.
  induction l as [|x l IH]; [done|]. cbn [list_sort foldr].
  fold (list_sort key l). rewrite insert_by_key_filter_key.
  cbn [List.filter]. by rewrite IH.
Qed.
End Stability.

Lemma entry_step_is_queue_entry (k : Z) (ev : GraphMutationEvent) :
  entry_step_is k (EventBasedRecording.queue_entry ev) = (step ev =? k)%Z.
Proof.
  unfold entry_step_is. by rewrite (proj1 (queue_entry_lookup ev)).
Qed.

(** X6: among the entries of [get_queue_evolution] that carry one step, those
    of ["queue_extended"] events come first, in recorded order, followed by
    those of ["queue_dequeued"] events, in recorded order. *)
Theorem get_queue_evolution_same_step_order (σ : Store)
    (self : EventBasedRecording.t) (k : Z) :
  List.filter (entry_step_is k) (EventBasedRecording.get_queue_evolution σ self) =
  map (fun e => EventBasedRecording.queue_entry (σ e))
    (filter (fun e => event_type (σ e) = "queue_extended" /\
                      timing (σ e) = "after" /\ step (σ e) = k)
       (EventBasedRecording.events self)) ++
  map (fun e => EventBasedRecording.queue_entry (σ e))
    (filter (fun e => event_type (σ e) = "queue_dequeued" /\
                      timing (σ e) = "after" /\ step (σ e) = k)
       (EventBasedRecording.events self)).
Proof.
  unfold EventBasedRecording.get_queue_evolution, EventBasedRecording.get_events_by_type.
  rewrite List_filter_map, <- map_app. f_equal.
  erewrite (List.filter_ext (fun x => entry_step_is k _))
    by (intros e; apply entry_step_is_queue_entry).
  rewrite filter_filter_comm, (list_sort_filter_key (fun e => step (σ e))).
  rewrite !List.filter_app, !filter_filter_andb.
  f_equal; apply List_filter_decide; intros e;
    rewrite !andb_true_iff, !String.eqb_eq, Z.eqb_eq; tauto.
Qed.

(** ** The summary *)
Section SummaryLemmas.

Lemma sum_counts_bump (m : gmap string Z) (k : string) :
  sum_counts (<[k := (default 0 (m !! k) + 1)%Z]> m) = (sum_counts m + 1)%Z.
Proof.
  unfold sum_counts. destruct (m !! k) as [c|] eqn:Hk; simpl.
  - rewrite <- insert_delete_eq.
    rewrite map_fold_insert_L; [|intros; lia|by rewrite lookup_delete_eq].
    rewrite (map_fold_delete_L _ _ k c m); [lia|intros; lia|done].
  - rewrite map_fold_insert_L; [lia|intros; lia|done].
Qed.

Lemma count_fold_sum (σ : Store) (l : list ref) (acc : gmap string Z) :
  sum_counts
    (fold_left
       (fun (by_type : gmap string Z) event =>
          <[event_type (σ event) := (default 0 (by_type !! event_type (σ event)) + 1)%Z]> by_type)
       l acc)
  = (sum_counts acc + Z.of_nat (length l))%Z.
Proof.
  revert acc. induction l as [|e l IH]; intros acc; simpl fold_left.
  - simpl. lia.
  - rewrite IH, sum_counts_bump. simpl length. lia.
Qed.

Lemma count_fold_lookup (σ : Store) (l : list ref) (acc : gmap string Z) (ty : string) :
  fold_left
    (fun (by_type : gmap string Z) event =>
       <[event_type (σ event) := (default 0 (by_type !! event_type (σ event)) + 1)%Z]> by_type)
    l acc !! ty
  = let n := length (List.filter (fun e => String.eqb (event_type (σ e)) ty) l) in
    match acc !! ty with
    | Some c => Some (c + Z.of_nat n)%Z
    | None => if decide (n = 0%nat) then None else Some (Z.of_nat n)
    end.
Proof.
  revert acc. induction l as [|e l IH]; intros acc; cbv zeta in *; simpl fold_left.
  - simpl. destruct (acc !! ty); [f_equal; lia | done].
  - rewrite IH. simpl List.filter.
    destruct (String.eqb_spec (event_type (σ e)) ty) as [->|Hne].
    + rewrite lookup_insert_eq. simpl length.
      destruct (acc !! ty); simpl; f_equal; lia.
    + by rewrite lookup_insert_ne.
Qed.

#[local] Instance item_leb_total : Total (fun a b : string * Z => item_leb a b).
Proof.
  intros [ka ca] [kb cb]. unfold item_leb. simpl.
  rewrite (String.eqb_sym kb ka).
  destruct (String.eqb ka kb).
  - destruct (Z.leb_spec ca cb), (Z.leb_spec cb ca); simpl; try tauto. lia.
  - destruct (String.leb_total ka kb) as [->| ->]; simpl; tauto.
Qed.

#[local] Instance item_leb_trans : Transitive (fun a b : string * Z => item_leb a b).
Proof.
  intros [ka ca] [kb cb] [kc cc]. unfold item_leb. simpl.
  destruct (String.eqb_spec ka kb) as [->|Hab].
  - destruct (String.eqb_spec kb kc) as [->|Hbc]; [|done].
    intros H1%Is_true_true H2%Is_true_true. apply Is_true_true.
    apply Z.leb_le in H1, H2. apply Z.leb_le. lia.
  - destruct (String.eqb_spec kb kc) as [->|Hbc].
    + destruct (String.eqb_spec ka kc); [done|]. by intros.
    + intros H1 H2. destruct (String.eqb_spec ka kc) as [->|Hac].
      * destruct Hab. apply (anti_symm String.le); done.
      * by apply (transitivity (R:=String.le) H1).
Qed.

Lemma sorted_items_spec (m : gmap string Z) :
  StronglySorted (fun a b => item_leb a b) (sorted_items m) /\
  NoDup (sorted_items m).*1 /\
  (forall k c, (k, c) ∈ sorted_items m <-> m !! k = Some c).
Proof.
  unfold sorted_items. split_and!.
  - apply (StronglySorted_merge_sort _).
  - rewrite merge_sort_Permutation. apply NoDup_fst_map_to_list.
  - intros k c. rewrite merge_sort_Permutation. apply elem_of_map_to_list.
Qed.

Lemma count_by_type_lookup (σ : Store) (self : EventBasedRecording.t) (ty : string) :
  count_by_type σ self !! ty =
    match EventBasedRecording.get_events_by_type σ self ty with
    | [] => None
    | evs => Some (Z.of_nat (length evs))
    end.
Proof.
  unfold count_by_type. rewrite count_fold_lookup. cbv zeta. rewrite lookup_empty.
  unfold EventBasedRecording.get_events_by_type.
  destruct (List.filter _ _); [done|]. by rewrite decide_False.
Qed.
End SummaryLemmas.

(** X7: the [by_type] dictionary that [show_summary] builds holds, for every
    event type that was recorded, the number of recorded events of that type
    (what [get_events_by_type] returns), holds no other key, and its counts
    add up to the number of recorded events. *)
Theorem count_by_type_counts (σ : Store) (self : EventBasedRecording.t) :
  (forall ty,
     count_by_type σ self !! ty =
       match EventBasedRecording.get_events_by_type σ self ty with
       | [] => None
       | evs => Some (Z.of_nat (length evs))
       end) /\
  sum_counts (count_by_type σ self) =
    Z.of_nat (length (EventBasedRecording.events self)).
Proof.
  split; [apply count_by_type_lookup|].
  unfold count_by_type. rewrite count_fold_sum. unfold sum_counts.
  by rewrite map_fold_empty.
Qed.

(** X8: [show_summary] prints six heading lines, with the number of events
    and the number of distinct executed components, and then one line per
    recorded event type, in the order of the type names, each with the number
    of recorded events of that type. *)
Theorem show_summary_lines (σ : Store) (self : EventBasedRecording.t) :
  exists items : list (string * Z),
    show_summary σ self =
      [ nl +:+ str_repeat "=" 80;
        "Event Recording: " +:+ EventBasedRecording.flow_name self;
        str_repeat "=" 80 +:+ nl;
        "Total events: " +:+
          pretty (Z.of_nat (length (EventBasedRecording.events self)));
        "Components executed: " +:+
          pretty (Z.of_nat (length
            (remove_dups (EventBasedRecording.component_executions self))));
        nl +:+ "Event types:" ] ++
      map (fun item => "  " +:+ fst item +:+ ": " +:+ pretty (snd item)) items /\
    StronglySorted (fun a b => item_leb a b) items /\
    NoDup items.*1 /\
    (forall ty n, (ty, n) ∈ items <->
       (0 < n)%Z /\
       n = Z.of_nat (length (EventBasedRecording.get_events_by_type σ self ty))).
Proof.
  exists (sorted_items (count_by_type σ self)).
  destruct (sorted_items_spec (count_by_type σ self)) as (Hs & Hnd & Hin).
  split_and!; [|done|done|].
  - unfold show_summary.
    assert ((list_to_set (EventBasedRecording.component_executions self) : gset string)
            = list_to_set (remove_dups (EventBasedRecording.component_executions self)))
      as ->.
    { apply set_eq. intros x. by rewrite !elem_of_list_to_set, elem_of_remove_dups. }
    by rewrite size_list_to_set by apply NoDup_remove_dups.
  - intros ty n. rewrite Hin, count_by_type_lookup.
    destruct (EventBasedRecording.get_events_by_type σ self ty) as [|e l].
    + simpl. split; [done | lia].
    + split; [intros [= <-]; simpl length; lia | by intros [_ ->]].
Qed.

(** ** The timeline *)

Lemma split_on_spec (sep : ascii) (s : string) :
  str_lacks sep (fst (split_on sep s)) = true /\
  (s = fst (split_on sep s) /\ snd (split_on sep s) = [] \/
   exists rest, s = fst (split_on sep s) +:+ String sep rest).
Proof.
  unfold str_lacks. induction s as [|c s IH]; cbn [split_on].
  - split; [done | by left].
  - destruct (split_on sep s) as [w ws]. cbn [fst snd] in IH.
    destruct IH as [Hw Hs].
    destruct (Ascii.eqb_spec c sep) as [->|Hne]; cbn [fst snd].
    + split; [done|]. right. by exists s.
    + split.
      * cbn [str_forallb]. by rewrite Hw, (proj2 (Ascii.eqb_neq c sep) Hne).
      * destruct Hs as [[Hs ->]|[rest Hs]].
        -- left. by rewrite <- Hs.
        -- right. exists rest. by rewrite str_app_cons, <- Hs.
Qed.

(** X9: the vertex label of a timeline line is ["Graph"] for an event with no
    vertex id (or an empty one); otherwise it is the vertex id up to its first
    ["-"], the whole id when it has none. *)
Theorem timeline_vertex_label (o : option string) :
  match o with
  | None => timeline_vertex o = "Graph"
  | Some v =>
      if decide (v = "") then timeline_vertex o = "Graph"
      else
        str_lacks "-" (timeline_vertex o) = true /\
        (v = timeline_vertex o \/
         exists rest, v = timeline_vertex o +:+ String "-" rest)
  end.
Proof.
  destruct o as [v|]; [|done].
  unfold timeline_vertex, truthy_str.
  destruct (decide (v = "")) as [->|Hne]; [done|].
  rewrite (proj2 (String.eqb_neq v "") Hne). simpl negb. cbv iota.
  destruct (split_on_spec "-" v) as [Hl [[Hv _]|Hv]]; split; auto.
Qed.

(** X10: [show_timeline] prints five heading lines and then one line for
    each of the first [MAX_TIMELINE_EVENTS] events with timing ["after"], in
    recorded order and numbered from 0; when there are more such events, a
    last line reports how many were left out, and otherwise nothing
    follows. *)
Theorem show_timeline_lines (σ : Store) (self : EventBasedRecording.t) :
  let after_events :=
    filter (fun e => timing (σ e) = "after") (EventBasedRecording.events self) in
  let n := length after_events in
  exists lines rest : list string,
    show_timeline σ self =
      [ nl +:+ str_repeat "=" 80;
        "Event Timeline: " +:+ EventBasedRecording.flow_name self;
        str_repeat "=" 80 +:+ nl;
        "Total events: " +:+
          pretty (Z.of_nat (length (EventBasedRecording.events self))) +:+ nl;
        "Timeline (after events only):" ] ++ lines ++ rest /\
    length lines = Nat.min n 30 /\
    (forall i line, lines !! i = Some line ->
       exists e, after_events !! i = Some e /\
         line = "[" +:+ format_d 3 (Z.of_nat i) +:+ "] " +:+
                format_s 20 (event_type (σ e)) +:+ " " +:+
                timeline_vertex (vertex_id (σ e))) /\
    ((n <= 30)%nat /\ rest = [] \/
     (30 < n)%nat /\
     rest = [ nl +:+ "... and " +:+ pretty (Z.of_nat (n - 30)) +:+ " more events" ]).
Proof.
  cbv zeta. unfold show_timeline.
  rewrite (List_filter_decide (fun e => timing (σ e) = "after"))
    by (intros e; apply String.eqb_eq).
  set (after_events := filter _ _).
  eexists _, _. split; [reflexivity|]. split_and!.
  - rewrite length_imap, length_take. unfold MAX_TIMELINE_EVENTS. lia.
  - intros i line Hline. rewrite list_lookup_imap in Hline.
    destruct (take MAX_TIMELINE_EVENTS after_events !! i) as [e|] eqn:He; [|done].
    injection Hline as <-. exists e. split; [|done].
    apply lookup_take_Some in He. tauto.
  - unfold MAX_TIMELINE_EVENTS.
    destruct (Nat.ltb_spec 30 (length after_events)) as [Hlt|Hle].
    + right. split; [done|].
      by replace (Z.of_nat (length after_events) - Z.of_nat 30)%Z
        with (Z.of_nat (length after_events - 30)) by lia.
    + by left.
Qed.

(** * More on the MCP configuration helpers *)

Section SliceLemmas.

Lemma substring_prefix_length (n : nat) (s : string) :
  String.length (String.substring 0 n s) = Nat.min n (String.length s) /\
  exists rest, s = String.substring 0 n s +:+ rest.
Proof.
  revert n. induction s as [|c s IH]; intros n.
  - destruct n; simpl; (split; [done | by exists ""]).
  - destruct n as [|n]; simpl.
    + split; [done | by exists (String c s)].
    + destruct (IH n) as [Hlen [rest Hrest]]. split; [by rewrite Hlen|].
      exists rest. by rewrite str_app_cons, <- Hrest.
Qed.

Lemma str_length_app (a b : string) :
  String.length (a +:+ b) = (String.length a + String.length b)%nat.
Proof. induction a as [|x a IH]; str_simpl; by rewrite ?IH. Qed.
End SliceLemmas.

(** X11: the server name made for a project is ["lf-"] followed by the first
    [MAX_MCP_SERVER_NAME_LENGTH - 4] characters of the sanitized project name
    (all of it when it is shorter), so it is at most
    [MAX_MCP_SERVER_NAME_LENGTH - 1] characters long. *)
Theorem project_server_name_bound (MAX : Z) (sanitize : string -> string)
    (project_name : string) (Hmax : (4 <= MAX)%Z) :
  exists body rest,
    project_server_name MAX sanitize project_name = "lf-" +:+ body /\
    sanitize project_name = body +:+ rest /\
    Z.of_nat (String.length body) =
      Z.min (MAX - 4) (Z.of_nat (String.length (sanitize project_name))) /\
    (Z.of_nat (String.length (project_server_name MAX sanitize project_name))
       <= MAX - 1)%Z.
Proof.
  unfold project_server_name, slice_to.
  destruct (Z.ltb_spec (MAX - 4) 0) as [?|_]; [lia|].
  set (n := Z.to_nat _).
  destruct (substring_prefix_length n (sanitize project_name)) as [Hlen [rest Hrest]].
  exists (String.substring 0 n (sanitize project_name)), rest.
  split_and!; [done|done|subst n; lia|].
  rewrite str_length_app, Nat2Z.inj_add, Hlen. subst n. simpl String.length. lia.
Qed.

Lemma project_server_name_bound_witness :
  (4 <= 10)%Z /\
  exists body rest,
    project_server_name 10 sanitize_clean "starter-projects" = "lf-" +:+ body /\
    sanitize_clean "starter-projects" = body +:+ rest /\
    Z.of_nat (String.length body) =
      Z.min (10 - 4) (Z.of_nat (String.length (sanitize_clean "starter-projects"))) /\
    (Z.of_nat (String.length (project_server_name 10 sanitize_clean "starter-projects"))
       <= 10 - 1)%Z.
Proof.
  split; [lia|].
  apply (project_server_name_bound 10 sanitize_clean "starter-projects"). lia.
Defined.

(** ** [validate_mcp_server_for_project] when the server is registered *)

Example conflict_message_create :
  conflict_message_for "create" "lf-demo" "demo" sample_uuid =
  "MCP server name conflict: 'lf-demo' already exists for a different project. Cannot create MCP server for project 'demo' (ID: 00000000-0000-0000-0000-000000000005)".
Proof. vm_compute. reflexivity. Qed.

(** X12: when the listed servers hold an entry under the project's server
    name whose [args] is a list ending in a text, the validation returns a
    result with [server_exists] set, the entry as [existing_config], and
    [project_id_matches] telling whether the project id occurs in that last
    argument; the conflict message is empty on a match and is the message of
    the operation otherwise. *)
Theorem validate_registered_server (MAX : Z) (sanitize : string -> string)
    (project_id : UUID) (project_name operation : string)
    (listing servers config : gmap string PyVal) (args : list PyVal) (url : string)
    (Hservers : listing !! "mcpServers" = Some (PyDict servers))
    (Hconfig : servers !! project_server_name MAX sanitize project_name
                 = Some (PyDict config))
    (Hargs : config !! "args" = Some (PyList args))
    (Hlast : last args = Some (PyStr url)) :
  let matches := str_contains (uuid_str project_id) url in
  let name := project_server_name MAX sanitize project_name in
  validate_mcp_server_for_project MAX sanitize project_id project_name
    (inr (PyDict listing)) operation =
  inr {| MCPServerValidationResult.server_exists := true;
         MCPServerValidationResult.project_id_matches := matches;
         MCPServerValidationResult.server_name := name;
         MCPServerValidationResult.existing_config := PyDict config;
         MCPServerValidationResult.conflict_message :=
           if matches then ""
           else conflict_message_for operation name project_name project_id |}.
Proof.
  cbv zeta. unfold validate_mcp_server_for_project, validate_body.
  cbn. rewrite Hservers. cbn. rewrite Hconfig. cbn.
  rewrite Hargs. destruct args as [|arg args]; [done|].
  cbn -[last]. rewrite Hlast. cbn.
  by destruct (str_contains (uuid_str project_id) url).
Qed.

Lemma validate_registered_server_witness :
  validate_mcp_server_for_project 64 sanitize_clean sample_uuid "demo"
    (inr (PyDict {[ "mcpServers" := PyDict {[ "lf-demo" := PyDict
       {[ "args" := PyList [PyStr "mcp-proxy"; PyStr "http://other/sse"] ]} ]} ]}))
    "update" =
  inr {| MCPServerValidationResult.server_exists := true;
         MCPServerValidationResult.project_id_matches := false;
         MCPServerValidationResult.server_name := "lf-demo";
         MCPServerValidationResult.existing_config :=
           PyDict {[ "args" := PyList [PyStr "mcp-proxy"; PyStr "http://other/sse"] ]};
         MCPServerValidationResult.conflict_message :=
           conflict_message_for "update" "lf-demo" "demo" sample_uuid |}.
Proof.
  apply (validate_registered_server 64 sanitize_clean sample_uuid "demo" "update"
           {[ "mcpServers" := PyDict {[ "lf-demo" := PyDict
                {[ "args" := PyList [PyStr "mcp-proxy"; PyStr "http://other/sse"] ]} ]} ]}
           {[ "lf-demo" := PyDict
                {[ "args" := PyList [PyStr "mcp-proxy"; PyStr "http://other/sse"] ]} ]}
           {[ "args" := PyList [PyStr "mcp-proxy"; PyStr "http://other/sse"] ]}
           [PyStr "mcp-proxy"; PyStr "http://other/sse"] "http://other/sse");
    reflexivity.
Defined.

(** X13: a registered server whose entry has no [args], or an empty list of
    them, is taken to belong to another project: the result has
    [server_exists] set and [project_id_matches] cleared, with the conflict
    message of the operation. *)
Theorem validate_registered_without_args (MAX : Z) (sanitize : string -> string)
    (project_id : UUID) (project_name operation : string)
    (listing servers config : gmap string PyVal)
    (Hservers : listing !! "mcpServers" = Some (PyDict servers))
    (Hconfig : servers !! project_server_name MAX sanitize project_name
                 = Some (PyDict config))
    (Hargs : config !! "args" = None \/ config !! "args" = Some (PyList [])) :
  let name := project_server_name MAX sanitize project_name in
  exists r,
    validate_mcp_server_for_project MAX sanitize project_id project_name
      (inr (PyDict listing)) operation = inr r /\
    MCPServerValidationResult.has_conflict r = true /\
    MCPServerValidationResult.should_proceed r = false /\
    MCPServerValidationResult.server_name r = name /\
    MCPServerValidationResult.existing_config r = PyDict config /\
    MCPServerValidationResult.conflict_message r =
      conflict_message_for operation name project_name project_id.
Proof.
  cbv zeta. unfold validate_mcp_server_for_project, validate_body.
  cbn. rewrite Hservers. cbn. rewrite Hconfig. cbn.
  destruct Hargs as [-> | ->]; cbn; eexists; (split; [reflexivity|]); done.
Qed.

Lemma validate_registered_without_args_witness :
  exists r,
    validate_mcp_server_for_project 64 sanitize_clean sample_uuid "demo"
      (inr (PyDict {[ "mcpServers" := PyDict {[ "lf-demo" := PyDict ∅ ]} ]}))
      "delete" = inr r /\
    MCPServerValidationResult.has_conflict r = true /\
    MCPServerValidationResult.should_proceed r = false /\
    MCPServerValidationResult.server_name r = "lf-demo" /\
    MCPServerValidationResult.existing_config r = PyDict ∅ /\
    MCPServerValidationResult.conflict_message r =
      conflict_message_for "delete" "lf-demo" "demo" sample_uuid.
Proof.
  apply (validate_registered_without_args 64 sanitize_clean sample_uuid "demo" "delete"
           {[ "mcpServers" := PyDict {[ "lf-demo" := PyDict ∅ ]} ]}
           {[ "lf-demo" := PyDict ∅ ]} ∅); [reflexivity | reflexivity | by left].
Defined.

Lemma conflict_message_for_other (operation server_name project_name : string)
    (project_id : UUID) :
  operation <> "create" -> operation <> "update" -> operation <> "delete" ->
  conflict_message_for operation server_name project_name project_id = "".
Proof.
  intros H1 H2 H3. unfold conflict_message_for.
  by rewrite (proj2 (String.eqb_neq _ _) H1), (proj2 (String.eqb_neq _ _) H2),
    (proj2 (String.eqb_neq _ _) H3).
Qed.

(** X14: only ["create"], ["update"] and ["delete"] have a conflict message.
    For any other operation name, a server registered for another project
    (its last argument does not hold the project id) is still reported as a
    conflict, with an empty message. *)
Theorem conflict_message_unknown_operation (MAX : Z) (sanitize : string -> string)
    (project_id : UUID) (project_name operation : string)
    (listing servers config : gmap string PyVal) (args : list PyVal) (url : string)
    (Hservers : listing !! "mcpServers" = Some (PyDict servers))
    (Hconfig : servers !! project_server_name MAX sanitize project_name
                 = Some (PyDict config))
    (Hargs : config !! "args" = Some (PyList args))
    (Hlast : last args = Some (PyStr url))
    (Hother : str_contains (uuid_str project_id) url = false)
    (Hop : operation <> "create" /\ operation <> "update" /\ operation <> "delete") :
  exists r,
    validate_mcp_server_for_project MAX sanitize project_id project_name
      (inr (PyDict listing)) operation = inr r /\
    MCPServerValidationResult.has_conflict r = true /\
    MCPServerValidationResult.conflict_message r = "".
Proof.
  destruct Hop as (H1 & H2 & H3).
  unfold validate_mcp_server_for_project, validate_body.
  cbn. rewrite Hservers. cbn. rewrite Hconfig. cbn.
  rewrite Hargs. destruct args as [|arg args]; [done|].
  cbn -[last]. rewrite Hlast. cbn. rewrite Hother. cbn.
  eexists. split; [reflexivity|]. split; [done|]. cbn.
  by apply conflict_message_for_other.
Qed.

Lemma conflict_message_unknown_operation_witness :
  exists r,
    validate_mcp_server_for_project 64 sanitize_clean sample_uuid "demo"
      (inr (PyDict {[ "mcpServers" := PyDict {[ "lf-demo" := PyDict
         {[ "args" := PyList [PyStr "mcp-proxy"; PyStr "http://other/sse"] ]} ]} ]}))
      "rename" = inr r /\
    MCPServerValidationResult.has_conflict r = true /\
    MCPServerValidationResult.conflict_message r = "".
Proof.
  apply (conflict_message_unknown_operation 64 sanitize_clean sample_uuid "demo" "rename"
           {[ "mcpServers" := PyDict {[ "lf-demo" := PyDict
                {[ "args" := PyList [PyStr "mcp-proxy"; PyStr "http://other/sse"] ]} ]} ]}
           {[ "lf-demo" := PyDict
                {[ "args" := PyList [PyStr "mcp-proxy"; PyStr "http://other/sse"] ]} ]}
           {[ "args" := PyList [PyStr "mcp-proxy"; PyStr "http://other/sse"] ]}
           [PyStr "mcp-proxy"; PyStr "http://other/sse"] "http://other/sse");
    try reflexivity.
  by split_and!.
Defined.

(** X15: whatever the listing holds, a result that the validation returns has
    [server_exists] set and carries the project's server name; its conflict
    message is empty exactly on the paths where the project id matched or the
    operation has no message. *)
Theorem validate_returns_only_registered (MAX : Z) (sanitize : string -> string)
    (project_id : UUID) (project_name operation : string)
    (get_server_list : Result PyVal) (r : MCPServerValidationResult.t)
    (Hret : validate_mcp_server_for_project MAX sanitize project_id project_name
              get_server_list operation = inr r) :
  MCPServerValidationResult.server_exists r = true /\
  MCPServerValidationResult.server_name r =
    project_server_name MAX sanitize project_name /\
  MCPServerValidationResult.should_skip r =
    MCPServerValidationResult.project_id_matches r /\
  MCPServerValidationResult.has_conflict r =
    negb (MCPServerValidationResult.project_id_matches r) /\
  MCPServerValidationResult.conflict_message r =
    (if MCPServerValidationResult.project_id_matches r then ""
     else conflict_message_for operation
            (project_server_name MAX sanitize project_name) project_name project_id).
Proof.
  unfold validate_mcp_server_for_project, try_except in Hret.
  destruct (validate_body _ _ _ _ _) as [e|r'] eqn:Hbody; [done|].
  injection Hret as ->. unfold validate_body in Hbody.
  repeat match type of Hbody with
  | (mbind _ ?m) = _ => destruct m eqn:?; cbn in Hbody; [done|]
  | (if ?b then _ else _) = _ => destruct b eqn:?; cbn in Hbody; [done|]
  end.
  cbn in Hbody.
  unfold MCPServerValidationResult.init, mret, Result_ret in Hbody.
  injection Hbody as <-.
  unfold MCPServerValidationResult.should_skip, MCPServerValidationResult.has_conflict.
  cbn. by destruct b0.
Qed.

Lemma validate_returns_only_registered_witness :
  validate_mcp_server_for_project 64 sanitize_clean sample_uuid "demo"
    (inr sample_listing) "create" = inr sample_validation /\
  MCPServerValidationResult.server_exists sample_validation = true.
Proof.
  assert (validate_mcp_server_for_project 64 sanitize_clean sample_uuid "demo"
            (inr sample_listing) "create" = inr sample_validation) as H
    by (vm_compute; reflexivity).
  split; [exact H|].
  exact (proj1 (validate_returns_only_registered 64 sanitize_clean sample_uuid
                  "demo" "create" (inr sample_listing) sample_validation H)).
Defined.

(** ** [get_url_by_os] *)

(** X16: [get_url_by_os] returns the URL it was given, whatever that URL is,
    when the machine is not a WSL one, when the host is neither ["localhost"]
    nor ["127.0.0.1"], when the address probe fails with an [OSError], exits
    with a non-zero code, or prints only blanks. *)
Theorem get_url_by_os_unchanged (env : OSEnv) (host : string) (port : Z) (url : string)
    (H : is_wsl env = false \/
         is_loopback_name host = false \/
         hostname_I env = ProcOSError \/
         exists rc out, hostname_I env = ProcExit rc out /\
                        (rc <> 0 \/ strip is_bytes_space out = "")) :
  get_url_by_os env host port url = inr url.
Proof.
  unfold get_url_by_os. fold (is_wsl env). fold (is_loopback_name host).
  destruct H as [-> | [-> | [-> | (rc & out & -> & Hfail)]]].
  - done.
  - by rewrite andb_false_r.
  - by destruct (_ && _).
  - destruct (_ && _); [|done]. destruct Hfail as [Hrc | ->].
    + by rewrite (proj2 (Z.eqb_neq rc 0) Hrc).
    + by rewrite andb_false_r.
Qed.

Lemma get_url_by_os_unchanged_witness :
  get_url_by_os mac_env "localhost" 7860 "http://localhost:7860/health" =
  inr "http://localhost:7860/health".
Proof.
  apply (get_url_by_os_unchanged mac_env "localhost" 7860 "http://localhost:7860/health").
  by left.
Defined.

(** X17: only [OSError] is handled around the address probe.  On a WSL
    machine with a loopback host, a probe that exits with code 0 and prints
    characters that [bytes.strip] keeps but [str.split] treats as blanks
    leaves no address to take, and the function raises [IndexError]. *)
Theorem get_url_by_os_no_address (env : OSEnv) (host : string) (port : Z)
    (url out : string)
    (Hwsl : is_wsl env = true) (Hhost : is_loopback_name host = true)
    (Hprobe : hostname_I env = ProcExit 0 out)
    (Hascii : str_forallb is_ascii out = true)
    (Hbytes : strip is_bytes_space out <> "")
    (Hsplit : str_split (strip is_str_space out) = []) :
  get_url_by_os env host port url = inl IndexError.
Proof.
  unfold get_url_by_os. fold (is_wsl env). fold (is_loopback_name host).
  rewrite Hwsl, Hhost, Hprobe. cbn [andb].
  unfold truthy_str, bytes_decode.
  rewrite (proj2 (String.eqb_neq _ _) Hbytes), Hascii. cbn. by rewrite Hsplit.
Qed.

Lemma get_url_by_os_no_address_witness :
  get_url_by_os blank_probe_env "localhost" 7860 "http://localhost:7860/x" =
  inl IndexError.
Proof.
  apply (get_url_by_os_no_address blank_probe_env "localhost" 7860
           "http://localhost:7860/x" (String (ascii_of_nat 28) EmptyString));
    try reflexivity.
  vm_compute. discriminate.
Defined.

(** * More on the prompt component: the front-end node *)

Example update_template_rejected :
  PromptComponent._update_template reject_all process_nothing
    (sample_node "{{variable}}") = inr (sample_node "{{variable}}").
Proof. vm_compute. reflexivity. Qed.

Section FrontendNodeLemmas.
Context (validate : PyVal -> Result unit).
Context (process : PyVal -> string -> PyVal -> PyVal -> bool ->
                   option PyExn * (PyVal * PyVal)).

Lemma pass_value_error_not_value_error {A} (outcome : option PyExn * A) (e : PyExn) :
  PromptComponent.pass_value_error outcome = inl e -> PromptComponent.is_value_error e = false.
Proof.
  unfold PromptComponent.pass_value_error.
  destruct (fst outcome) as [e'|]; [|intros [=]].
  destruct (PromptComponent.is_value_error e') eqn:He'; [intros [=]|].
  by intros [= <-].
Qed.

Lemma py_getitem_str_not_value_error (c : PyVal) (k : string) (e : PyExn) :
  py_getitem_str c k = inl e -> PromptComponent.is_value_error e = false.
Proof.
  unfold py_getitem_str. destruct c; cbn; try (intros [=]; by subst).
  destruct (_ !! _); cbn; intros [=]; by subst.
Qed.

Lemma py_get_not_value_error (c : PyVal) (k : string) (d : PyVal) (e : PyExn) :
  py_get c k d = inl e -> PromptComponent.is_value_error e = false.
Proof. unfold py_get. destruct c; cbn; intros [=]; by subst. Qed.
End FrontendNodeLemmas.

Ltac step_bind H lem :=
  match type of H with
  | mbind _ ?m = inl _ =>
      let Hm := fresh "Hm" in
      destruct m eqn:Hm; cbn in H;
      [injection H as <-;
       first [ by eauto using lem
             | by (unfold mret, Result_ret, raise in *; repeat case_match; simplify_eq) ] |]
  end.

(** X18: [_update_template] never lets a [ValueError] out: whatever the
    validator and the processor do, an exception that leaves the function is
    of another class. *)
Theorem update_template_raises_no_value_error
    (validate : PyVal -> Result unit)
    (process : PyVal -> string -> PyVal -> PyVal -> bool ->
               option PyExn * (PyVal * PyVal))
    (frontend_node : gmap string PyVal) (e : PyExn)
    (Hraise : PromptComponent._update_template validate process frontend_node = inl e) :
  PromptComponent.is_value_error e = false.
Proof.
  unfold PromptComponent._update_template in Hraise.
  step_bind Hraise py_getitem_str_not_value_error.
  step_bind Hraise py_getitem_str_not_value_error.
  step_bind Hraise py_getitem_str_not_value_error.
  step_bind Hraise py_get_not_value_error.
  step_bind Hraise py_get_not_value_error.
  by apply pass_value_error_not_value_error in Hraise.
Qed.

Lemma update_template_raises_no_value_error_witness :
  PromptComponent._update_template accept_all process_nothing ∅ = inl KeyError /\
  PromptComponent.is_value_error KeyError = false.
Proof.
  split; [reflexivity|].
  apply (update_template_raises_no_value_error accept_all process_nothing ∅ KeyError).
  reflexivity.
Defined.

(** X19: a node that does not name the mustache syntax as its mode (no mode
    entry counts as ["{variable}"]) is processed without consulting the
    mustache validator: the outcome is the same for any two validators. *)
Theorem update_template_fstring_skips_validation
    (validate1 validate2 : PyVal -> Result unit)
    (process : PyVal -> string -> PyVal -> PyVal -> bool ->
               option PyExn * (PyVal * PyVal))
    (frontend_node : gmap string PyVal)
    (Hmode : declares_mustache frontend_node = false) :
  PromptComponent._update_template validate1 process frontend_node =
  PromptComponent._update_template validate2 process frontend_node.
Proof.
  unfold PromptComponent._update_template, declares_mustache in *. cbn.
  destruct (frontend_node !! "template") as [template_dict|]; [|done]. cbn.
  destruct template_dict as [| | | | |tpl]; try done. cbn.
  destruct (tpl !! "template") as [template_field|]; [|done]. cbn.
  destruct (py_getitem_str template_field "value") as [?|prompt_template]; [done|]. cbn.
  destruct (tpl !! "mode") as [mode_field|]; cbn; [|done].
  destruct mode_field as [| | | | |md]; try done. cbn.
  destruct (md !! "value") as [m|]; cbn; [|done].
  destruct m as [| | |m| |]; try done. cbn.
  unfold PromptComponent.process_template_of_node. by rewrite Hmode.
Qed.

Lemma update_template_fstring_skips_validation_witness :
  PromptComponent._update_template reject_all process_nothing (sample_node "{variable}") =
  PromptComponent._update_template accept_all process_nothing (sample_node "{variable}").
Proof.
  apply (update_template_fstring_skips_validation reject_all accept_all
           process_nothing (sample_node "{variable}")).
  reflexivity.
Defined.

Lemma mustache_node_reads (frontend_node : gmap string PyVal) (value : PyVal) :
  declares_mustache frontend_node = true ->
  node_template_value frontend_node = Some value ->
  exists tpl,
    frontend_node !! "template" = Some (PyDict tpl) /\
    py_getitem_str (PyDict tpl) "template" ≫=
      (fun template_field => py_getitem_str template_field "value") = inr value /\
    py_get (PyDict tpl) "mode" (PyDict ∅) ≫=
      (fun mode_field => py_get mode_field "value" (PyStr "{variable}"))
      = inr (PyStr "{{variable}}").
Proof.
  unfold declares_mustache, node_template_value.
  destruct (frontend_node !! "template") as [[| | | | |tpl]|]; try done.
  intros Hm Hv. exists tpl. split; [done|]. cbn.
  destruct (tpl !! "template") as [[| | | | |fld]|]; try done. cbn. rewrite Hv. cbn.
  destruct (tpl !! "mode") as [[| | | | |md]|]; try done. cbn.
  destruct (md !! "value") as [[| | |m| |]|]; try done. cbn.
  apply String.eqb_eq in Hm. by subst.
Qed.

(** X20: when the node names the mustache syntax and the validator rejects
    its template with a [ValueError], [_update_template] returns the node as
    it was, without an exception and without calling the processor. *)
Theorem update_template_rejected_template
    (validate : PyVal -> Result unit)
    (process : PyVal -> string -> PyVal -> PyVal -> bool ->
               option PyExn * (PyVal * PyVal))
    (frontend_node : gmap string PyVal) (value : PyVal) (e : PyExn)
    (Hmode : declares_mustache frontend_node = true)
    (Hvalue : node_template_value frontend_node = Some value)
    (Hreject : validate value = inl e)
    (Hclass : PromptComponent.is_value_error e = true) :
  PromptComponent._update_template validate process frontend_node = inr frontend_node.
Proof.
  destruct (mustache_node_reads _ _ Hmode Hvalue) as (tpl & Htpl & Hv & Hm).
  unfold PromptComponent._update_template. cbn. rewrite Htpl. cbn.
  cbn in Hv, Hm.
  destruct (tpl !! "template") as [fld|]; [|done]. cbn in *.
  destruct (py_getitem_str fld "value") as [?|v]; [done|]. cbn in *.
  injection Hv as ->.
  destruct (tpl !! "mode") as [mode_field|]; cbn in *; [|done].
  destruct (py_get mode_field "value" (PyStr "{variable}")) as [?|m]; [done|].
  cbn in *. injection Hm as ->. cbn.
  unfold PromptComponent.process_template_of_node, PromptComponent.pass_value_error.
  rewrite Hreject. cbn. by rewrite Hclass.
Qed.

Lemma update_template_rejected_template_witness :
  PromptComponent._update_template reject_all process_nothing
    (sample_node "{{variable}}") = inr (sample_node "{{variable}}").
Proof.
  apply (update_template_rejected_template reject_all process_nothing
           (sample_node "{{variable}}") (PyStr "Hi {{name}}") ValueError);
    reflexivity.
Defined.

(** X21: in [update_frontend_node], a template that the mustache validator
    rejects with a [ValueError] does not stop the update: the values of the
    previous node are still carried over, by [update_template_values], into
    the node that the base class returned. *)
Theorem update_frontend_node_rejected_template
    (validate : PyVal -> Result unit)
    (process : PyVal -> string -> PyVal -> PyVal -> bool ->
               option PyExn * (PyVal * PyVal))
    (super_update : gmap string PyVal -> gmap string PyVal ->
                    Result (gmap string PyVal * gmap string PyVal))
    (update_values : gmap string PyVal -> PyVal -> Result (gmap string PyVal))
    (new_node current_node frontend_node current_after : gmap string PyVal)
    (value previous : PyVal) (e : PyExn)
    (Hsuper : super_update new_node current_node = inr (frontend_node, current_after))
    (Hmode : declares_mustache frontend_node = true)
    (Hvalue : node_template_value frontend_node = Some value)
    (Hreject : validate value = inl e)
    (Hclass : PromptComponent.is_value_error e = true)
    (Hprevious : current_after !! "template" = Some previous) :
  PromptComponent.update_frontend_node validate process super_update update_values
    new_node current_node
  = update_values frontend_node previous.
Proof.
  destruct (mustache_node_reads _ _ Hmode Hvalue) as (tpl & Htpl & Hv & Hm).
  unfold PromptComponent.update_frontend_node. rewrite Hsuper. cbn.
  rewrite Htpl. cbn. cbn in Hv, Hm.
  destruct (tpl !! "template") as [fld|]; [|done]. cbn in *.
  destruct (py_getitem_str fld "value") as [?|v]; [done|]. cbn in *.
  injection Hv as ->.
  destruct (tpl !! "mode") as [mode_field|]; cbn in *; [|done].
  destruct (py_get mode_field "value" (PyStr "{variable}")) as [?|m]; [done|].
  cbn in *. injection Hm as ->. cbn.
  unfold PromptComponent.process_template_of_node, PromptComponent.pass_value_error.
  rewrite Hreject. cbn. rewrite Hclass. cbn. by rewrite Hprevious.
Qed.

Lemma update_frontend_node_rejected_template_witness :
  PromptComponent.update_frontend_node reject_all process_nothing
    (fun new current => inr (new, current))
    (fun node previous => inr (<["carried" := previous]> node))
    (sample_node "{{variable}}") (sample_node "{variable}")
  = inr (<["carried" := default PyNone (sample_node "{variable}" !! "template")]>
           (sample_node "{{variable}}")).
Proof.
  apply (update_frontend_node_rejected_template reject_all process_nothing
           (fun new current => inr (new, current))
           (fun node previous => inr (<["carried" := previous]> node))
           (sample_node "{{variable}}") (sample_node "{variable}")
           (sample_node "{{variable}}") (sample_node "{variable}")
           (PyStr "Hi {{name}}")
           (default PyNone (sample_node "{variable}" !! "template")) ValueError);
    reflexivity.
Defined.

(** ** [update_build_config] *)

Example update_build_config_to_mustache :
  PromptComponent.update_build_config reject_all (PyStr "mustache") (PyStr "prompt")
    same_text process_nothing_in_config sample_build_config
    (PyStr "{{variable}}") (Some "mode")
  = inr {[ "template" := PyDict {[ "value" := PyStr "Hi {name}"; "type" := PyStr "mustache" ]};
           "custom_fields" := PyDict {[ "template" := PyList [] ]};
           "mode" := PyDict ∅ ]}.
Proof. vm_compute. reflexivity. Qed.

Section BuildConfigLemmas.
Context (validate : PyVal -> Result unit) (MUSTACHE_PROMPT PROMPT : PyVal).
Context (py_eq : PyVal -> PyVal -> bool).
Context (process : PyVal -> bool -> gmap string PyVal ->
                   option PyExn * gmap string PyVal).

Lemma py_setitem_str_not_value_error (c : PyVal) (k : string) (v : PyVal) (e : PyExn) :
  PromptComponent.py_setitem_str c k v = inl e -> PromptComponent.is_value_error e = false.
Proof. unfold PromptComponent.py_setitem_str. destruct c; cbn; intros [=]; by subst. Qed.

Lemma py_pop_not_value_error (d : gmap string PyVal) (key : PyVal) (e : PyExn) :
  PromptComponent.py_pop d key = inl e -> PromptComponent.is_value_error e = false.
Proof. destruct key; cbn; intros [=]; by subst. Qed.

Lemma clean_old_fields_not_value_error (copy : list PyVal)
    (state : list PyVal * gmap string PyVal) (e : PyExn) :
  PromptComponent.clean_old_fields py_eq copy state = inl e ->
  PromptComponent.is_value_error e = false.
Proof.
  revert state. induction copy as [|x copy IH]; intros state; cbn; [intros [=]|].
  unfold PromptComponent.clean_old_field.
  destruct (PromptComponent.py_pop state.2 x) as [e'|bc] eqn:Hpop; cbn.
  - intros [= <-]. by eapply py_pop_not_value_error.
  - apply IH.
Qed.

Lemma clean_custom_fields_not_value_error (old : PyVal)
    (build_config : gmap string PyVal) (e : PyExn) :
  PromptComponent.clean_custom_fields py_eq old build_config = inl e ->
  PromptComponent.is_value_error e = false.
Proof.
  unfold PromptComponent.clean_custom_fields. destruct old as [| | |s|l|d]; cbn;
    try (intros [=]; by subst).
  - destruct (String.eqb s ""); cbn; intros [=]; by subst.
  - destruct (PromptComponent.clean_old_fields py_eq l (l, build_config)) eqn:Hc; cbn;
      [|intros [=]].
    intros [= <-]. by eapply clean_old_fields_not_value_error.
  - destruct (bool_decide (d = ∅)); cbn; intros [=]; by subst.
Qed.

Lemma remove_first_sublist (x : PyVal) (l : list PyVal) :
  sublist (PromptComponent.remove_first py_eq x l) l.
Proof.
  induction l as [|y l IH]; cbn; [done|].
  destruct (py_eq y x); by constructor.
Qed.

Lemma lookup_without_keys (names : list string) (d : gmap string PyVal) (k : string) :
  without_keys names d !! k = if decide (k ∈ names) then None else d !! k.
Proof.
  unfold without_keys. revert d. induction names as [|n names IH]; intros d; cbn.
  - by rewrite decide_False by apply not_elem_of_nil.
  - rewrite IH. destruct (decide (k ∈ names)) as [Hin|Hnin].
    + by rewrite decide_True by (by right).
    + destruct (decide (k = n)) as [->|Hne].
      * rewrite lookup_delete_eq. by rewrite decide_True by left.
      * rewrite lookup_delete_ne by done.
        rewrite decide_False; [done|]. by intros [?|?]%elem_of_cons.
Qed.

(** The loop leaves the list empty and takes every named entry out of the
    configuration, provided a value equals itself. *)
Lemma clean_old_fields_strings (Hrefl : forall x, py_eq x x = true)
    (names : list string) (old : list PyVal) (build_config : gmap string PyVal) :
  sublist old (PyStr <$> names) ->
  PromptComponent.clean_old_fields py_eq (PyStr <$> names) (old, build_config)
  = inr ([], without_keys names build_config).
Proof.
  revert old build_config. induction names as [|n names IH]; intros old bc Hsub; cbn.
  - apply sublist_nil_r in Hsub. by subst.
  - apply IH. apply sublist_cons_r in Hsub as [Hsub|(old' & -> & Hsub)].
    + destruct (existsb _ old); [|done].
      etrans; [apply remove_first_sublist | done].
    + cbn. by rewrite Hrefl.
Qed.
End BuildConfigLemmas.

(** X22: [update_build_config] touches nothing unless the field that changed
    is [mode]: for any other field name, or none, it returns the
    configuration it was given. *)
Theorem update_build_config_other_field
    (validate : PyVal -> Result unit) (MUSTACHE_PROMPT PROMPT : PyVal)
    (py_eq : PyVal -> PyVal -> bool)
    (process : PyVal -> bool -> gmap string PyVal -> option PyExn * gmap string PyVal)
    (build_config : gmap string PyVal) (field_value : PyVal)
    (field_name : option string) (Hname : field_name <> Some "mode") :
  PromptComponent.update_build_config validate MUSTACHE_PROMPT PROMPT py_eq process
    build_config field_value field_name = inr build_config.
Proof.
  unfold PromptComponent.update_build_config.
  destruct field_name as [n|]; [|done].
  destruct (String.eqb_spec n "mode") as [->|]; done.
Qed.

Lemma update_build_config_other_field_witness :
  PromptComponent.update_build_config reject_all (PyStr "mustache") (PyStr "prompt")
    same_text process_nothing_in_config sample_build_config (PyStr "x") (Some "template")
  = inr sample_build_config.
Proof.
  apply (update_build_config_other_field reject_all (PyStr "mustache") (PyStr "prompt")
           same_text process_nothing_in_config sample_build_config (PyStr "x")
           (Some "template")).
  discriminate.
Defined.

(** X23: [update_build_config] never lets a [ValueError] out, whatever the
    validator and the processor do. *)
Theorem update_build_config_raises_no_value_error
    (validate : PyVal -> Result unit) (MUSTACHE_PROMPT PROMPT : PyVal)
    (py_eq : PyVal -> PyVal -> bool)
    (process : PyVal -> bool -> gmap string PyVal -> option PyExn * gmap string PyVal)
    (build_config : gmap string PyVal) (field_value : PyVal)
    (field_name : option string) (e : PyExn)
    (Hraise : PromptComponent.update_build_config validate MUSTACHE_PROMPT PROMPT
                py_eq process build_config field_value field_name = inl e) :
  PromptComponent.is_value_error e = false.
Proof.
  unfold PromptComponent.update_build_config in Hraise.
  destruct (match field_name with Some n => String.eqb n "mode" | None => false end);
    [|done].
  step_bind Hraise py_getitem_str_not_value_error.
  step_bind Hraise py_setitem_str_not_value_error.
  step_bind Hraise py_get_not_value_error.
  destruct (py_truthy _); [|done].
  step_bind Hraise py_getitem_str_not_value_error.
  step_bind Hraise py_get_not_value_error.
  match type of Hraise with
  | mbind _ ?m = inl _ =>
      destruct m eqn:Hclean; cbn in Hraise;
      [injection Hraise as <-; by eapply clean_custom_fields_not_value_error |]
  end.
  by apply pass_value_error_not_value_error in Hraise.
Qed.

Lemma update_build_config_raises_no_value_error_witness :
  PromptComponent.update_build_config reject_all (PyStr "mustache") (PyStr "prompt")
    same_text process_nothing_in_config ∅ (PyStr "{variable}") (Some "mode")
  = inl KeyError /\
  PromptComponent.is_value_error KeyError = false.
Proof.
  split; [reflexivity|].
  apply (update_build_config_raises_no_value_error reject_all (PyStr "mustache")
           (PyStr "prompt") same_text process_nothing_in_config ∅
           (PyStr "{variable}") (Some "mode") KeyError).
  reflexivity.
Defined.

(** X24: a change of [mode] on a configuration whose template text is empty
    or missing only sets the type of the template field: the mustache prompt
    type when the new mode is ["{{variable}}"], the plain prompt type
    otherwise.  Neither the validator nor the processor is called. *)
Theorem update_build_config_empty_template
    (validate : PyVal -> Result unit) (MUSTACHE_PROMPT PROMPT : PyVal)
    (py_eq : PyVal -> PyVal -> bool)
    (process : PyVal -> bool -> gmap string PyVal -> option PyExn * gmap string PyVal)
    (build_config tpl : gmap string PyVal) (field_value : PyVal)
    (Htpl : build_config !! "template" = Some (PyDict tpl))
    (Hempty : py_truthy (default (PyStr "") (tpl !! "value")) = false) :
  PromptComponent.update_build_config validate MUSTACHE_PROMPT PROMPT py_eq process
    build_config field_value (Some "mode")
  = inr (<["template" :=
            PyDict (<["type" := if is_py_str "{{variable}}" field_value
                                then MUSTACHE_PROMPT else PROMPT]> tpl)]> build_config).
Proof.
  unfold PromptComponent.update_build_config. cbn. rewrite Htpl. cbn.
  rewrite lookup_insert_eq. cbn. rewrite lookup_insert_ne by done.
  by rewrite Hempty.
Qed.

Lemma update_build_config_empty_template_witness :
  PromptComponent.update_build_config reject_all (PyStr "mustache") (PyStr "prompt")
    same_text process_nothing_in_config
    {[ "template" := PyDict {[ "type" := PyStr "prompt" ]} ]}
    (PyStr "{{variable}}") (Some "mode")
  = inr (<["template" := PyDict (<["type" := PyStr "mustache"]> {[ "type" := PyStr "prompt" ]})]>
           {[ "template" := PyDict {[ "type" := PyStr "prompt" ]} ]}).
Proof.
  apply (update_build_config_empty_template reject_all (PyStr "mustache")
           (PyStr "prompt") same_text process_nothing_in_config
           {[ "template" := PyDict {[ "type" := PyStr "prompt" ]} ]}
           {[ "type" := PyStr "prompt" ]} (PyStr "{{variable}}")); reflexivity.
Defined.

(** X25: switching to the mustache mode cleans the fields of the old mode
    even when the validator then rejects the template with a [ValueError].
    With the old custom fields a list of names (none of them ["template"] or
    ["custom_fields"]), the call returns without an exception a configuration
    in which the template has the mustache prompt type, the list of custom
    fields of the template is empty, every named entry is gone and every
    other entry is as before. *)
Theorem update_build_config_cleans_old_fields
    (validate : PyVal -> Result unit) (MUSTACHE_PROMPT PROMPT : PyVal)
    (py_eq : PyVal -> PyVal -> bool)
    (process : PyVal -> bool -> gmap string PyVal -> option PyExn * gmap string PyVal)
    (build_config tpl cf : gmap string PyVal) (value : PyVal)
    (names : list string) (e : PyExn)
    (Hrefl : forall x, py_eq x x = true)
    (Htpl : build_config !! "template" = Some (PyDict tpl))
    (Hvalue : tpl !! "value" = Some value)
    (Htext : py_truthy value = true)
    (Hcf : build_config !! "custom_fields" = Some (PyDict cf))
    (Hold : cf !! "template" = Some (PyList (PyStr <$> names)))
    (Hnames : ("template" ∉ names) /\ ("custom_fields" ∉ names))
    (Hreject : validate value = inl e)
    (Hclass : PromptComponent.is_value_error e = true) :
  exists cleaned,
    PromptComponent.update_build_config validate MUSTACHE_PROMPT PROMPT py_eq process
      build_config (PyStr "{{variable}}") (Some "mode") = inr cleaned /\
    cleaned !! "template" = Some (PyDict (<["type" := MUSTACHE_PROMPT]> tpl)) /\
    cleaned !! "custom_fields" = Some (PyDict (<["template" := PyList []]> cf)) /\
    (forall n, n ∈ names -> cleaned !! n = None) /\
    (forall k, k ∉ names -> k <> "template" -> k <> "custom_fields" ->
       cleaned !! k = build_config !! k).
Proof.
  destruct Hnames as [Hn1 Hn2].
  unfold PromptComponent.update_build_config. cbn. rewrite Htpl. cbn.
  rewrite lookup_insert_eq. cbn. rewrite lookup_insert_ne by done.
  rewrite Hvalue. cbn. rewrite Htext.
  rewrite lookup_insert_ne by done. rewrite Hcf. cbn.
  rewrite lookup_insert_ne by done. rewrite Hcf. cbn. rewrite Hold. cbn.
  rewrite (clean_old_fields_strings py_eq Hrefl) by done. cbn.
  unfold PromptComponent.store_cleaned_fields.
  rewrite lookup_without_keys, decide_False by done.
  rewrite lookup_insert_ne by done. rewrite Hcf, ?Hold.
  rewrite Hreject. unfold PromptComponent.pass_value_error. cbn. rewrite Hclass.
  eexists. split; [reflexivity|]. split_and!.
  - rewrite lookup_insert_ne by done.
    by rewrite lookup_without_keys, decide_False, lookup_insert_eq by done.
  - by rewrite lookup_insert_eq.
  - intros n Hn. rewrite lookup_insert_ne by (intros <-; done).
    by rewrite lookup_without_keys, decide_True.
  - intros k Hk Hk1 Hk2. rewrite lookup_insert_ne by done.
    by rewrite lookup_without_keys, decide_False, lookup_insert_ne by done.
Qed.

Lemma update_build_config_cleans_old_fields_witness :
  exists cleaned,
    PromptComponent.update_build_config reject_all (PyStr "mustache") (PyStr "prompt")
      same_text process_nothing_in_config sample_build_config
      (PyStr "{{variable}}") (Some "mode") = inr cleaned /\
    cleaned !! "template" =
      Some (PyDict (<["type" := PyStr "mustache"]>
                      {[ "value" := PyStr "Hi {name}"; "type" := PyStr "prompt" ]})) /\
    cleaned !! "custom_fields" =
      Some (PyDict (<["template" := PyList []]> {[ "template" := PyList [PyStr "name"] ]})) /\
    (forall n, n ∈ ["name"] -> cleaned !! n = None) /\
    (forall k, k ∉ ["name"] -> k <> "template" -> k <> "custom_fields" ->
       cleaned !! k = sample_build_config !! k).
Proof.
  apply (update_build_config_cleans_old_fields reject_all (PyStr "mustache")
           (PyStr "prompt") same_text process_nothing_in_config sample_build_config
           {[ "value" := PyStr "Hi {name}"; "type" := PyStr "prompt" ]}
           {[ "template" := PyList [PyStr "name"] ]}
           (PyStr "Hi {name}") ["name"] ValueError); try reflexivity.
  - intros x. destruct x; try reflexivity. apply String.eqb_refl.
  - split; intros [[=]|H]%elem_of_cons; by apply elem_of_nil in H.
Defined.
